(** * A shallow embedding of [web-services/python-api/app.py]

    The module is a Flask application that keeps a handful of module-level
    globals (Prometheus metrics, the [network_data] dictionary, the two
    connection objects) and mutates them from the connect functions, the
    request hooks and the view functions.  The embedding threads those
    globals through an explicit state; a call that may raise returns an
    [outcome]; everything the process cannot decide by itself (the
    environment variables, the clock, what the database, the cache and the
    sockets answer) is read from a [world] supplied for each call. *)

From stdpp Require Import base option gmap sets list strings pretty.
From Stdlib Require Import ZArith Ascii.

Local Open Scope Z_scope.
#[local] Set Warnings "-register-all,-clear-no-such-hyp".

(** ** Exceptions and outcomes *)

(** Every exception the module meets is an instance of [Exception]: the
    errors of psycopg2, redis and socket, [KeyError], [TypeError], and
    werkzeug's [HTTPException] which Flask turns into a response. *)
Inductive exn : Type :=
| Error (cls msg : string)
| HTTPException (code : Z).

(** [str(e)] *)
Definition str_exn (e : exn) : string :=
  match e with
  | Error _ msg => msg
  | HTTPException code => pretty code
  end.

Inductive outcome (A : Type) : Type :=
| Ret (a : A)
| Raise (e : exn).
Arguments Ret {A} a.
Arguments Raise {A} e.

(** ** Connection objects *)

Record pg_params : Type := PgParams {
  pg_host : string;
  pg_database : string;
  pg_user : string;
  pg_password : string;
  pg_port : Z
}.

Record redis_params : Type := RedisParams {
  redis_host : string;
  redis_port : Z;
  decode_responses : bool
}.

(** A connection object is identified by the arguments it was built from. *)
Inductive pg_connection : Type := PgConnection (p : pg_params).
Inductive redis_object : Type := RedisObject (p : redis_params).

(** ** The outside world *)

(** One [world] is what the process observes during one call.  An
    [option exn] answer is the exception the call raises, [None] when it
    returns normally.  [send_static_file_result] is what Flask's static
    file view does for a file name: the status of the file response, or
    the exception, [NotFound] when there is no such file.
    [merged_path_matches] says whether werkzeug, for a path that no rule
    takes as it is, finds a rule once the doubled slashes are merged; how
    far it merges depends on its version. *)
Record world : Type := World {
  environ : gmap string string;
  clock : Z;
  sys_version : string;
  psycopg2_connect_raises : pg_params -> option exn;
  redis_Redis_raises : redis_params -> option exn;
  redis_ping_raises : option exn;
  pg_cursor_raises : option exn;
  pg_execute_raises : string -> option exn;
  pg_fetchone_result : outcome (option (string * Z));
  pg_cursor_close_raises : option exn;
  redis_set_raises : string -> string -> Z -> option exn;
  redis_get_result : string -> outcome (option string);
  redis_info_result : string -> outcome (gmap string string);
  redis_setex_raises : string -> Z -> string -> option exn;
  gethostname_result : outcome string;
  gethostbyname_result : string -> outcome string;
  create_connection_raises : string -> Z -> Z -> option exn;
  ru_maxrss_result : outcome Z;
  send_static_file_result : string -> outcome Z;
  merged_path_matches : string -> bool
}.

(** ** Effects visible outside the process *)

Inductive thread_target : Type := background_task_target.

Inductive event : Type :=
| EvPrint (msg : string)
| EvPgConnect (p : pg_params)
| EvRedisNew (p : redis_params)
| EvRedisPing
| EvPgCursor
| EvPgExecute (sql : string)
| EvPgFetchone
| EvPgCursorClose
| EvRedisSet (key value : string) (ex : Z)
| EvRedisGet (key : string)
| EvRedisInfo (section : string)
| EvRedisSetex (key : string) (ttl : Z) (value : string)
| EvSocketConnect (host : string) (port timeout : Z)
| EvThreadStart (t : thread_target)
| EvThreadExcepthook (e : exn)
| EvAppRun (host : string) (port : Z) (debug : bool).

(** ** Module globals *)

(** Lines 16-19.  A labelled metric maps each label tuple that was ever
    touched to its value; the histogram is the list of its observations.
    Prometheus stores floats; the module only ever adds or subtracts one
    and sets zero or one, which is exact, so the values are integers. *)
Record metrics : Type := Metrics {
  REQUEST_COUNT : gmap (string * string * string) Z;
  REQUEST_DURATION : list Z;
  ACTIVE_CONNECTIONS : Z;
  DATABASE_CONNECTIONS : gmap string Z
}.

(** Lines 22-30.  [request.remote_addr] may be [None], and Python puts
    [None] into the set like any other value. *)
Record network_data_t : Type := NetworkData {
  start_time : Z;
  request_count : Z;
  unique_clients : gset (option string);
  service_health : gmap string bool
}.

Record state : Type := State {
  prom : metrics;
  network_data : network_data_t;
  postgres_conn : option pg_connection;
  redis_client : option redis_object;
  app_debug : bool;
  threads : list thread_target;
  trace : list event
}.

(** The module right after import, at time [t0]. *)
Definition initial_state (t0 : Z) : state :=
  {| prom := {| REQUEST_COUNT := ∅; REQUEST_DURATION := [];
                ACTIVE_CONNECTIONS := 0; DATABASE_CONNECTIONS := ∅ |};
     network_data := {| start_time := t0; request_count := 0;
                        unique_clients := ∅;
                        service_health := <["postgres" := false]> (<["redis" := false]> ∅) |};
     postgres_conn := None;
     redis_client := None;
     app_debug := false;
     threads := [];
     trace := [] |}.

Definition with_prom (f : metrics -> metrics) (s : state) : state :=
  {| prom := f (prom s); network_data := network_data s;
     postgres_conn := postgres_conn s; redis_client := redis_client s;
     app_debug := app_debug s; threads := threads s; trace := trace s |}.

Definition with_network_data (f : network_data_t -> network_data_t) (s : state) : state :=
  {| prom := prom s; network_data := f (network_data s);
     postgres_conn := postgres_conn s; redis_client := redis_client s;
     app_debug := app_debug s; threads := threads s; trace := trace s |}.

Definition with_postgres_conn (c : option pg_connection) (s : state) : state :=
  {| prom := prom s; network_data := network_data s;
     postgres_conn := c; redis_client := redis_client s;
     app_debug := app_debug s; threads := threads s; trace := trace s |}.

Definition with_redis_client (c : option redis_object) (s : state) : state :=
  {| prom := prom s; network_data := network_data s;
     postgres_conn := postgres_conn s; redis_client := c;
     app_debug := app_debug s; threads := threads s; trace := trace s |}.

Definition with_app_debug (b : bool) (s : state) : state :=
  {| prom := prom s; network_data := network_data s;
     postgres_conn := postgres_conn s; redis_client := redis_client s;
     app_debug := b; threads := threads s; trace := trace s |}.

Definition with_threads (f : list thread_target -> list thread_target) (s : state) : state :=
  {| prom := prom s; network_data := network_data s;
     postgres_conn := postgres_conn s; redis_client := redis_client s;
     app_debug := app_debug s; threads := f (threads s); trace := trace s |}.

Definition with_trace (f : list event -> list event) (s : state) : state :=
  {| prom := prom s; network_data := network_data s;
     postgres_conn := postgres_conn s; redis_client := redis_client s;
     app_debug := app_debug s; threads := threads s; trace := f (trace s) |}.

(** ** The monad of the module's code *)

(** A piece of code reads the world, updates the globals and either
    returns or raises; what it did to the globals before raising stays. *)
Definition M (A : Type) : Type := world -> state -> outcome A * state.

Definition ret {A} (a : A) : M A := fun _ s => (Ret a, s).

Definition raise {A} (e : exn) : M A := fun _ s => (Raise e, s).

Definition bind {A B} (m : M A) (k : A -> M B) : M B :=
  fun w s =>
    match m w s with
    | (Ret a, s') => k a w s'
    | (Raise e, s') => (Raise e, s')
    end.

(** [try: body / except Exception as e: handler] *)
Definition try_except {A} (body : M A) (handler : exn -> M A) : M A :=
  fun w s =>
    match body w s with
    | (Ret a, s') => (Ret a, s')
    | (Raise e, s') => handler e w s'
    end.

Definition ask {A} (f : world -> A) : M A := fun w s => (Ret (f w), s).
Definition gets {A} (f : state -> A) : M A := fun _ s => (Ret (f s), s).
Definition modify (f : state -> state) : M unit := fun _ s => (Ret tt, f s).

(** A call that raises or returns nothing. *)
Definition may_raise (f : world -> option exn) : M unit :=
  fun w s => match f w with Some e => (Raise e, s) | None => (Ret tt, s) end.

(** A call that raises or returns a value. *)
Definition answer {A} (f : world -> outcome A) : M A := fun w s => (f w, s).

Definition emit (ev : event) : M unit := modify (with_trace (fun t => t ++ [ev])).

Notation "'let*' x := c1 'in' c2" := (bind c1 (fun x => c2))
  (at level 10, x name, c1 at level 100, c2 at level 200,
   format "'[v' 'let*'  x  :=  c1  'in' '/' c2 ']'").
Notation "c1 >> c2" := (bind c1 (fun _ => c2))
  (at level 100, c2 at level 200, right associativity,
   format "'[v' c1  >> '/' c2 ']'").

Definition print (msg : string) : M unit := emit (EvPrint msg).

(** [os.getenv(key, default)] *)
Definition getenv (key dflt : string) : M string :=
  ask (fun w => default dflt (environ w !! key)).

(** ** Metric operations *)

(** [DATABASE_CONNECTIONS.labels(database=db).set(v)] *)
Definition DATABASE_CONNECTIONS_set (db : string) (v : Z) : M unit :=
  modify (with_prom (fun m =>
    {| REQUEST_COUNT := REQUEST_COUNT m; REQUEST_DURATION := REQUEST_DURATION m;
       ACTIVE_CONNECTIONS := ACTIVE_CONNECTIONS m;
       DATABASE_CONNECTIONS := <[db := v]> (DATABASE_CONNECTIONS m) |})).

(** [ACTIVE_CONNECTIONS.inc()] and [.dec()] *)
Definition ACTIVE_CONNECTIONS_add (d : Z) : M unit :=
  modify (with_prom (fun m =>
    {| REQUEST_COUNT := REQUEST_COUNT m; REQUEST_DURATION := REQUEST_DURATION m;
       ACTIVE_CONNECTIONS := ACTIVE_CONNECTIONS m + d;
       DATABASE_CONNECTIONS := DATABASE_CONNECTIONS m |})).

(** [REQUEST_COUNT.labels(method, endpoint, status).inc()]: the child of an
    unseen label tuple starts at zero. *)
Definition REQUEST_COUNT_inc (labels : string * string * string) : M unit :=
  modify (with_prom (fun m =>
    {| REQUEST_COUNT :=
         <[labels := default 0 (REQUEST_COUNT m !! labels) + 1]> (REQUEST_COUNT m);
       REQUEST_DURATION := REQUEST_DURATION m;
       ACTIVE_CONNECTIONS := ACTIVE_CONNECTIONS m;
       DATABASE_CONNECTIONS := DATABASE_CONNECTIONS m |})).

(** [network_data['service_health'][name] = v] *)
Definition set_service_health (name : string) (v : bool) : M unit :=
  modify (with_network_data (fun d =>
    {| start_time := start_time d; request_count := request_count d;
       unique_clients := unique_clients d;
       service_health := <[name := v]> (service_health d) |})).

(** ** Connecting (lines 36-76) *)

Definition psycopg2_connect (p : pg_params) : M pg_connection :=
  emit (EvPgConnect p) >>
  may_raise (fun w => psycopg2_connect_raises w p) >>
  ret (PgConnection p).

Definition connect_postgres : M bool :=
  try_except
    (let* host := getenv "POSTGRES_HOST" "localhost" in
     let* database := getenv "POSTGRES_DB" "appdb" in
     let* user := getenv "POSTGRES_USER" "user" in
     let* password := getenv "POSTGRES_PASSWORD" "password" in
     let* conn := psycopg2_connect
       {| pg_host := host; pg_database := database; pg_user := user;
          pg_password := password; pg_port := 5432 |} in
     modify (with_postgres_conn (Some conn)) >>
     set_service_health "postgres" true >>
     DATABASE_CONNECTIONS_set "postgres" 1 >>
     print "✅ Connected to PostgreSQL" >>
     ret true)
    (fun e =>
     print ("❌ PostgreSQL connection failed: " +:+ str_exn e) >>
     set_service_health "postgres" false >>
     DATABASE_CONNECTIONS_set "postgres" 0 >>
     ret false).

Definition redis_Redis (p : redis_params) : M redis_object :=
  emit (EvRedisNew p) >>
  may_raise (fun w => redis_Redis_raises w p) >>
  ret (RedisObject p).

Definition redis_ping : M unit :=
  emit EvRedisPing >> may_raise redis_ping_raises.

Definition connect_redis : M bool :=
  try_except
    (let* host := getenv "REDIS_HOST" "localhost" in
     let* client := redis_Redis
       {| redis_host := host; redis_port := 6379; decode_responses := true |} in
     modify (with_redis_client (Some client)) >>
     redis_ping >>
     set_service_health "redis" true >>
     DATABASE_CONNECTIONS_set "redis" 1 >>
     print "✅ Connected to Redis" >>
     ret true)
    (fun e =>
     print ("❌ Redis connection failed: " +:+ str_exn e) >>
     set_service_health "redis" false >>
     DATABASE_CONNECTIONS_set "redis" 0 >>
     ret false).

(** ** Requests, documents and responses *)

Record request : Type := Request {
  method : string;
  path : string;
  x_real_ip : option string;
  remote_addr : option string
}.

(** What [jsonify] is given.  [JTime t] stands for the ISO-8601 text of
    the instant [t]; [JRatio n d] for the float [n / d].  Instants and
    durations are in whole seconds. *)
Inductive json : Type :=
| JNull
| JBool (b : bool)
| JInt (z : Z)
| JRatio (n d : Z)
| JStr (s : string)
| JTime (t : Z)
| JObj (fields : list (string * json)).

Inductive body_t : Type :=
| Json (doc : json)
| Exposition (m : metrics)
| ErrorPage (code : Z)
| StaticFile (filename : string)
| Empty.

Record response : Type := Response {
  body : body_t;
  status_code : Z
}.

Definition jsonify (doc : json) : response := {| body := Json doc; status_code := 200 |}.

(** [doc[key]] on a document, [None] when [doc] is no object or has no
    such key. *)
Definition jget (key : string) (doc : json) : option json :=
  match doc with
  | JObj fields => (list_to_map fields : gmap string json) !! key
  | _ => None
  end.

Definition json_body (r : response) : option json :=
  match body r with Json doc => Some doc | _ => None end.

(** A dictionary from names to booleans, as [jsonify] renders it. *)
Definition json_of_bools (m : gmap string bool) : json :=
  JObj (prod_map id JBool <$> map_to_list m).

(** ** The request hooks (lines 78-99) *)

(** [request.environ.get('HTTP_X_REAL_IP', request.remote_addr)] *)
Definition client_ip_of (r : request) : option string :=
  match x_real_ip r with
  | Some ip => Some ip
  | None => remote_addr r
  end.

Definition before_request (r : request) : M unit :=
  modify (with_network_data (fun d =>
    {| start_time := start_time d; request_count := request_count d + 1;
       unique_clients := unique_clients d;
       service_health := service_health d |})) >>
  let client_ip := client_ip_of r in
  modify (with_network_data (fun d =>
    {| start_time := start_time d; request_count := request_count d;
       unique_clients := {[client_ip]} ∪ unique_clients d;
       service_health := service_health d |})) >>
  ACTIVE_CONNECTIONS_add 1 >>
  print ("📡 Request from " +:+ default "None" client_ip +:+ " to " +:+ path r).

(** The endpoints of the application: [static], which [Flask(__name__)]
    registers for the files of its static folder, and the six views
    registered by the [@app.route] decorators.  Each rule accepts GET, and
    Flask adds HEAD and OPTIONS. *)
Inductive endpoint : Type :=
| static_ep
| health_check_ep | network_info_ep | api_metrics_ep
| network_test_ep | simulate_load_ep | prometheus_metrics_ep.

Definition endpoint_name (ep : endpoint) : string :=
  match ep with
  | static_ep => "static"
  | health_check_ep => "health_check"
  | network_info_ep => "network_info"
  | api_metrics_ep => "api_metrics"
  | network_test_ep => "network_test"
  | simulate_load_ep => "simulate_load"
  | prometheus_metrics_ep => "prometheus_metrics"
  end.

(** The path of a rule: a literal path, or [/static/<path:filename>]. *)
Inductive rule_path : Type :=
| Literal (p : string)
| StaticPath.

Definition url_map : list (rule_path * endpoint) :=
  [ (StaticPath, static_ep);
    (Literal "/health", health_check_ep);
    (Literal "/network-info", network_info_ep);
    (Literal "/api/metrics", api_metrics_ep);
    (Literal "/api/network-test", network_test_ep);
    (Literal "/api/simulate-load", simulate_load_ep);
    (Literal "/metrics", prometheus_metrics_ep) ].

(** [s] without the prefix [pre], when it starts with it. *)
Fixpoint strip_prefix (pre s : string) : option string :=
  match pre, s with
  | EmptyString, _ => Some s
  | String a pre', String b s' =>
    if bool_decide (a = b) then strip_prefix pre' s' else None
  | String _ _, EmptyString => None
  end.

(** What [<path:filename>] takes of a path under [/static/]: the rest of
    the path, when it is not empty and does not start with a slash. *)
Definition static_filename (p : string) : option string :=
  match strip_prefix "/static/" p with
  | Some EmptyString => None
  | Some (String a rest) =>
    if bool_decide (a = "/"%char) then None else Some (String a rest)
  | None => None
  end.

(** The view arguments a rule takes from a path it matches. *)
Definition rule_matches (rp : rule_path) (p : string) : option string :=
  match rp with
  | Literal q => if bool_decide (p = q) then Some EmptyString else None
  | StaticPath => static_filename p
  end.

Fixpoint match_rules (rules : list (rule_path * endpoint)) (p : string)
  : option (endpoint * string) :=
  match rules with
  | [] => None
  | (rp, ep) :: rules' =>
    match rule_matches rp p with
    | Some filename => Some (ep, filename)
    | None => match_rules rules' p
    end
  end.

(** The rule that takes the path of the request, and the file name it
    reads from it. *)
Definition url_rule (r : request) : option endpoint :=
  fst <$> match_rules url_map (path r).

Definition view_args (r : request) : string :=
  default EmptyString (snd <$> match_rules url_map (path r)).

(** The path has two slashes in a row. *)
Fixpoint has_double_slash (p : string) : bool :=
  match p with
  | String a (String b rest as p') =>
    (bool_decide (a = "/"%char) && bool_decide (b = "/"%char)) || has_double_slash p'
  | _ => false
  end.

(** The path with every run of slashes merged into one. *)
Fixpoint merge_slashes (p : string) : string :=
  match p with
  | String a (String b rest as p') =>
    if bool_decide (a = "/"%char) && bool_decide (b = "/"%char)
    then merge_slashes p'
    else String a (merge_slashes p')
  | _ => p
  end.

Definition rule_methods : list string := ["GET"; "HEAD"; "OPTIONS"].

(** [request.endpoint]: the matched rule's endpoint, [None] when routing
    failed. *)
Definition request_endpoint (r : request) : option string :=
  match url_rule r with
  | Some ep => if bool_decide (method r ∈ rule_methods) then Some (endpoint_name ep) else None
  | None => None
  end.

Definition after_request (r : request) (resp : response) : M response :=
  REQUEST_COUNT_inc
    (method r, default "unknown" (request_endpoint r), pretty (status_code resp)) >>
  ACTIVE_CONNECTIONS_add (-1) >>
  ret resp.

(** ** The views *)

(** Lines 101-109. *)
Definition health_check : M response :=
  let* now := ask clock in
  let* services := gets (fun s => service_health (network_data s)) in
  let* version := ask sys_version in
  ret (jsonify (JObj
    [ ("status", JStr "healthy");
      ("timestamp", JTime now);
      ("services", json_of_bools services);
      ("python_version", JStr version) ])).

(** Lines 111-146. *)
Definition network_info : M response :=
  let* hostname := answer gethostname_result in
  let* container :=
    try_except
      (let* host_info := answer (fun w => gethostbyname_result w hostname) in
       ret (JObj [ ("hostname", JStr hostname);
                   ("container_ip", JStr host_info);
                   ("listening_port", JInt 5000);
                   ("protocol", JStr "HTTP/1.1") ]))
      (fun e =>
       ret (JObj [ ("hostname", JStr hostname); ("error", JStr (str_exn e)) ])) in
  let* d := gets network_data in
  let* now := ask clock in
  let* database_url := getenv "DATABASE_URL" "Not set" in
  let* redis_host_v := getenv "REDIS_HOST" "localhost" in
  let* postgres_host_v := getenv "POSTGRES_HOST" "localhost" in
  ret (jsonify (JObj
    [ ("container", container);
      ("stats", JObj
         [ ("requests_served", JInt (request_count d));
           ("unique_clients", JInt (Z.of_nat (size (unique_clients d))));
           ("uptime_seconds", JInt (now - start_time d));
           ("services", json_of_bools (service_health d)) ]);
      ("environment", JObj
         [ ("DATABASE_URL", JStr database_url);
           ("REDIS_HOST", JStr redis_host_v);
           ("POSTGRES_HOST", JStr postgres_host_v) ]) ])).

(** Lines 261-267; the bare [except] swallows everything. *)
Definition get_memory_usage : M json :=
  try_except
    (let* maxrss := answer ru_maxrss_result in ret (JRatio maxrss 1024))
    (fun _ => ret (JInt 0)).

Definition is_space (a : Ascii.ascii) : bool :=
  bool_decide (a ∈ [" "; "009"; "010"; "011"; "012"; "013"]%char).

Fixpoint take_word (s : string) : string :=
  match s with
  | EmptyString => EmptyString
  | String a s' => if is_space a then EmptyString else String a (take_word s')
  end.

Fixpoint skip_space (s : string) : string :=
  match s with
  | EmptyString => EmptyString
  | String a s' => if is_space a then skip_space s' else s
  end.

(** [s.split()[0]]: [IndexError] when [s] holds no word. *)
Definition first_word (s : string) : M string :=
  match skip_space s with
  | EmptyString => raise (Error "IndexError" "list index out of range")
  | rest => ret (take_word rest)
  end.

(** [d[key]] on a dictionary keyed by strings. *)
Definition getitem {V} (d : gmap string V) (key : string) : M V :=
  match d !! key with
  | Some v => ret v
  | None => raise (Error "KeyError" key)
  end.

(** Lines 148-174. *)
Definition api_metrics : M response :=
  try_except
    (let* now := ask clock in
     let* d := gets network_data in
     let* hostname := answer gethostname_result in
     let* version := ask sys_version in
     let* version0 := first_word version in
     let* memory := get_memory_usage in
     let* postgres_connected := getitem (service_health d) "postgres" in
     let* redis_connected := getitem (service_health d) "redis" in
     ret (jsonify (JObj
       [ ("application", JObj
            [ ("name", JStr "python-api-service");
              ("version", JStr "1.0.0");
              ("uptime_seconds", JInt (now - start_time d));
              ("total_requests", JInt (request_count d));
              ("unique_clients", JInt (Z.of_nat (size (unique_clients d)))) ]);
         ("infrastructure", JObj
            [ ("hostname", JStr hostname);
              ("python_version", JStr version0);
              ("memory_usage_mb", memory) ]);
         ("dependencies", JObj
            [ ("postgres_connected", JBool postgres_connected);
              ("redis_connected", JBool redis_connected) ]) ])))
    (fun e =>
     ret {| body := Json (JObj [ ("error", JStr (str_exn e)) ]); status_code := 500 |}).

(** Lines 269-276; the bare [except] swallows everything. *)
Definition test_external_connectivity : M json :=
  try_except
    (emit (EvSocketConnect "8.8.8.8" 53 3) >>
     may_raise (fun w => create_connection_raises w "8.8.8.8" 53 3) >>
     ret (JObj [ ("status", JStr "connected"); ("target", JStr "8.8.8.8:53") ]))
    (fun _ =>
     ret (JObj [ ("status", JStr "failed"); ("target", JStr "8.8.8.8:53") ])).

(** Lines 181-199 of [network_test]: the entry of [test_results] for the
    database. *)
Definition network_test_postgres : M json :=
  let* conn := gets postgres_conn in
  match conn with
  | Some _ =>
    try_except
      (emit EvPgCursor >>
       may_raise pg_cursor_raises >>
       emit (EvPgExecute "SELECT version(), current_timestamp") >>
       may_raise (fun w => pg_execute_raises w "SELECT version(), current_timestamp") >>
       emit EvPgFetchone >>
       let* result := answer pg_fetchone_result in
       emit EvPgCursorClose >>
       may_raise pg_cursor_close_raises >>
       match result with
       | Some (version, timestamp) =>
         ret (JObj [ ("status", JStr "connected");
                     ("version", JStr (String.substring 0 50 version +:+ "..."));
                     ("timestamp", JTime timestamp) ])
       | None => raise (Error "TypeError" "'NoneType' object is not subscriptable")
       end)
      (fun e =>
       ret (JObj [ ("status", JStr "error"); ("error", JStr (str_exn e)) ]))
  | None => ret (JObj [ ("status", JStr "not_connected") ])
  end.

(** Lines 201-218 of [network_test]: the entry of [test_results] for the
    cache. *)
Definition network_test_redis : M json :=
  let* client := gets redis_client in
  match client with
  | Some _ =>
    try_except
      (let* now := ask clock in
       let test_key := "network_test_" +:+ pretty now in
       emit (EvRedisSet test_key "test_value" 60) >>
       may_raise (fun w => redis_set_raises w test_key "test_value" 60) >>
       emit (EvRedisGet test_key) >>
       let* retrieved := answer (fun w => redis_get_result w test_key) in
       emit (EvRedisInfo "server") >>
       let* info := answer (fun w => redis_info_result w "server") in
       let* redis_version := getitem info "redis_version" in
       ret (JObj [ ("status", JStr "connected");
                   ("test_successful", JBool (bool_decide (retrieved = Some "test_value")));
                   ("info", JStr redis_version) ]))
      (fun e =>
       ret (JObj [ ("status", JStr "error"); ("error", JStr (str_exn e)) ]))
  | None => ret (JObj [ ("status", JStr "not_connected") ])
  end.

(** Lines 176-226.  [test_results] is filled in the order postgres, redis,
    external. *)
Definition network_test : M response :=
  let* postgres_result := network_test_postgres in
  let* redis_result := network_test_redis in
  let* external_result := test_external_connectivity in
  let* now := ask clock in
  ret (jsonify (JObj
    [ ("timestamp", JTime now);
      ("tests", JObj [ ("postgres", postgres_result);
                       ("redis", redis_result);
                       ("external", external_result) ]) ])).

(** Lines 236-239: the sum of [i * i] for [i] in [range(100000)]. *)
Definition background_total : Z :=
  snd (N.iter 100000 (fun '(i, total) => (i + 1, total + i * i)) (0, 0)).

(** Lines 234-244, the body of the thread.  [redis_client] is the module
    global, read when the thread reaches the test.  The two clock reads
    around the loop only feed [duration], which is never used. *)
Definition background_task : M unit :=
  let total := background_total in
  let* client := gets redis_client in
  match client with
  | Some _ =>
    let* now := ask clock in
    let key := "load_test_" +:+ pretty now in
    emit (EvRedisSetex key 300 (pretty total)) >>
    may_raise (fun w => redis_setex_raises w key 300 (pretty total))
  | None => ret tt
  end.

(** Lines 228-254.  [thread.start()] hands the target to a new thread and
    returns; the thread is pending until the scheduler runs it. *)
Definition simulate_load : M response :=
  modify (with_threads (fun ts => ts ++ [background_task_target])) >>
  emit (EvThreadStart background_task_target) >>
  let* now := ask clock in
  ret (jsonify (JObj
    [ ("message", JStr "Load simulation started");
      ("timestamp", JTime now);
      ("note", JStr "This simulates CPU load and Redis writes for learning purposes") ])).

(** Lines 256-259: [generate_latest()] renders the registry as it is. *)
Definition prometheus_metrics : M response :=
  let* m := gets prom in
  ret {| body := Exposition m; status_code := 200 |}.

(** Flask's view of the [static] endpoint: the file response, or what
    [send_from_directory] raises. *)
Definition send_static_file (filename : string) : M response :=
  let* code := answer (fun w => send_static_file_result w filename) in
  ret {| body := StaticFile filename; status_code := code |}.

Definition view_functions (ep : endpoint) (filename : string) : M response :=
  match ep with
  | static_ep => send_static_file filename
  | health_check_ep => health_check
  | network_info_ep => network_info
  | api_metrics_ep => api_metrics
  | network_test_ep => network_test
  | simulate_load_ep => simulate_load
  | prometheus_metrics_ep => prometheus_metrics
  end.

(** ** How Flask drives the hooks and the views

    The module hands its functions to Flask with [@app.before_request],
    [@app.after_request] and [@app.route]; what follows is the part of
    Flask's request dispatch ([Flask.wsgi_app], [full_dispatch_request],
    [handle_user_exception], [handle_exception], [finalize_request]) that
    decides when they run, and of werkzeug's routing: a path that no rule
    takes is answered 404, or redirected with 308 when it has doubled
    slashes and a rule takes it once they are merged; a method the rule
    does not accept is answered 405. *)

Definition preprocess_request (r : request) : M unit := before_request r.

(** The routing exception for a path that no rule takes as it is. *)
Definition routing_exception (r : request) : M response :=
  let* merged := ask (fun w => merged_path_matches w (path r)) in
  if has_double_slash (path r) && merged then
    if bool_decide (method r ∈ rule_methods)
    then raise (HTTPException 308)
    else raise (HTTPException 405)
  else raise (HTTPException 404).

Definition dispatch_request (r : request) : M response :=
  match url_rule r with
  | None => routing_exception r
  | Some ep =>
    if bool_decide (method r ∈ rule_methods) then
      if bool_decide (method r = "OPTIONS")
      then ret {| body := Empty; status_code := 200 |}
      else view_functions ep (view_args r)
    else raise (HTTPException 405)
  end.

(** No error handler is registered: an [HTTPException] is its own
    response, any other exception is raised again. *)
Definition handle_user_exception (e : exn) : M response :=
  match e with
  | HTTPException code => ret {| body := ErrorPage code; status_code := code |}
  | Error _ _ => raise e
  end.

Definition process_response (r : request) (resp : response) : M response :=
  after_request r resp.

Definition finalize_request (r : request) (rv : response) (from_error_handler : bool)
  : M response :=
  try_except (process_response r rv)
    (fun e => if from_error_handler then ret rv else raise e).

Definition full_dispatch_request (r : request) : M response :=
  let* rv := try_except (preprocess_request r >> dispatch_request r)
                        handle_user_exception in
  finalize_request r rv false.

(** With [PROPAGATE_EXCEPTIONS] unset, an unhandled exception is raised
    again when the application is in debug mode and becomes a 500
    response otherwise; only the response goes through the
    [after_request] functions. *)
Definition handle_exception (r : request) (e : exn) : M response :=
  let* propagate := gets app_debug in
  if propagate then raise e
  else finalize_request r {| body := ErrorPage 500; status_code := 500 |} true.

Definition wsgi_app (r : request) : M response :=
  try_except (full_dispatch_request r) (handle_exception r).

(** [wsgi_app] from the point where [before_request] has run. *)
Definition after_preprocess (r : request) : M response :=
  try_except
    (let* rv := try_except (dispatch_request r) handle_user_exception in
     finalize_request r rv false)
    (handle_exception r).

(** ** Start-up (lines 278-294) *)

(** [app.run(host, port, debug)] sets [app.debug] and serves. *)
Definition app_run (host : string) (port : Z) (debug : bool) : M unit :=
  modify (with_app_debug debug) >>
  emit (EvAppRun host port debug).

Definition main : M unit :=
  print "🐍 Starting Python API service for network learning..." >>
  connect_postgres >>
  connect_redis >>
  print "🚀 Python networking API endpoints:" >>
  print "   - Health: http://localhost:5000/health" >>
  print "   - Network Info: http://localhost:5000/network-info" >>
  print "   - Metrics: http://localhost:5000/api/metrics" >>
  print "   - Network Test: http://localhost:5000/api/network-test" >>
  print "   - Simulate Load: http://localhost:5000/api/simulate-load" >>
  print "   - Prometheus: http://localhost:5000/metrics" >>
  app_run "0.0.0.0" 5000 true.

(** ** The running process *)

(** [threading] runs the target and hands whatever it raises to
    [threading.excepthook]; nothing reaches the code that started the
    thread. *)
Definition thread_target_body (t : thread_target) : M unit :=
  match t with
  | background_task_target => background_task
  end.

Definition run_thread (t : thread_target) : M unit :=
  try_except (thread_target_body t) (fun e => emit (EvThreadExcepthook e)).

(** Once serving, the process answers requests and runs pending threads
    in whatever order the scheduler picks.  A thread only reads
    [redis_client] and talks to the cache, so running it in one piece
    between two requests loses nothing. *)
Inductive action : Type :=
| Serve (r : request)
| RunThread (i : nat).

Definition perform (a : action) : M (option response) :=
  match a with
  | Serve r => let* resp := wsgi_app r in ret (Some resp)
  | RunThread i =>
    let* ts := gets threads in
    match ts !! i with
    | Some t => modify (with_threads (delete i)) >> run_thread t >> ret None
    | None => ret None
    end
  end.

(** The state after a run of actions, each in its own world.  An
    exception that leaves [wsgi_app] goes to the WSGI server, and the
    process keeps serving. *)
Fixpoint run (l : list (action * world)) (s : state) : state :=
  match l with
  | [] => s
  | (a, w) :: l' => run l' (snd (perform a w s))
  end.

(** ** Sample worlds and requests *)

Definition refused (what : string) : exn :=
  Error "ConnectionError" (what +:+ ": connection refused").

Definition raises_unless (up : bool) (what : string) : option exn :=
  if up then None else Some (refused what).

Definition answers_if {A} (up : bool) (what : string) (a : A) : outcome A :=
  if up then Ret a else Raise (refused what).

(** A world at time [t] with no environment variables set, in which the
    database answers iff [pg_up], the cache iff [redis_up], and the host's
    own name resolves iff [host_up]; the static folder is empty, and
    werkzeug merges every run of slashes. *)
Definition sample_world (pg_up redis_up host_up : bool) (t : Z) : world :=
  {| environ := ∅;
     clock := t;
     sys_version := "3.11.4 (main, Jun  7 2023) [GCC 12.2.0]";
     psycopg2_connect_raises := fun _ => raises_unless pg_up "postgres";
     redis_Redis_raises := fun _ => None;
     redis_ping_raises := raises_unless redis_up "redis";
     pg_cursor_raises := raises_unless pg_up "postgres";
     pg_execute_raises := fun _ => raises_unless pg_up "postgres";
     pg_fetchone_result := answers_if pg_up "postgres" (Some ("PostgreSQL 15.3", t));
     pg_cursor_close_raises := raises_unless pg_up "postgres";
     redis_set_raises := fun _ _ _ => raises_unless redis_up "redis";
     redis_get_result := fun _ => answers_if redis_up "redis" (Some "test_value");
     redis_info_result := fun _ =>
       answers_if redis_up "redis" (<["redis_version" := "7.0.11"]> ∅);
     redis_setex_raises := fun _ _ _ => raises_unless redis_up "redis";
     gethostname_result := answers_if host_up "gethostname" "api";
     gethostbyname_result := fun _ => answers_if host_up "gethostbyname" "172.18.0.5";
     create_connection_raises := fun _ _ _ => None;
     ru_maxrss_result := Ret 40960;
     send_static_file_result := fun _ => Raise (HTTPException 404);
     merged_path_matches := fun p =>
       bool_decide (is_Some (match_rules url_map (merge_slashes p))) |}.

Definition get (p : string) : request :=
  {| method := "GET"; path := p; x_real_ip := None; remote_addr := Some "10.0.0.7" |}.

(** ** Notions the properties are stated with *)

Definition health (name : string) (s : state) : option bool :=
  service_health (network_data s) !! name.

Definition connection_gauge (name : string) (s : state) : option Z :=
  DATABASE_CONNECTIONS (prom s) !! name.

Definition active (s : state) : Z := ACTIVE_CONNECTIONS (prom s).

Definition clients (s : state) : gset (option string) :=
  unique_clients (network_data s).

Definition observations (s : state) : list Z := REQUEST_DURATION (prom s).

Definition counted (labels : string * string * string) (s : state) : Z :=
  default 0 (REQUEST_COUNT (prom s) !! labels).

Definition returns_normally (o : option exn) : bool :=
  match o with None => true | Some _ => false end.

Definition answers {A} (o : outcome A) : bool :=
  match o with Ret _ => true | Raise _ => false end.

(** The arguments the connect functions pass, after the defaults. *)
Definition configured_pg_params (w : world) : pg_params :=
  {| pg_host := default "localhost" (environ w !! "POSTGRES_HOST");
     pg_database := default "appdb" (environ w !! "POSTGRES_DB");
     pg_user := default "user" (environ w !! "POSTGRES_USER");
     pg_password := default "password" (environ w !! "POSTGRES_PASSWORD");
     pg_port := 5432 |}.

Definition configured_redis_params (w : world) : redis_params :=
  {| redis_host := default "localhost" (environ w !! "REDIS_HOST");
     redis_port := 6379;
     decode_responses := true |}.

(** The database accepts the connection. *)
Definition pg_connects (w : world) : bool :=
  returns_normally (psycopg2_connect_raises w (configured_pg_params w)).

(** The client object can be built, and the cache answers the ping. *)
Definition redis_builds (w : world) : bool :=
  returns_normally (redis_Redis_raises w (configured_redis_params w)).

Definition redis_connects (w : world) : bool :=
  redis_builds w && returns_normally (redis_ping_raises w).

(** The liveness probes of [network_test] go through. *)
Definition pg_probe_ok (w : world) : bool :=
  returns_normally (pg_cursor_raises w)
  && returns_normally (pg_execute_raises w "SELECT version(), current_timestamp")
  && match pg_fetchone_result w with Ret (Some _) => true | _ => false end
  && returns_normally (pg_cursor_close_raises w).

Definition network_test_key (w : world) : string :=
  "network_test_" +:+ pretty (clock w).

Definition redis_probe_ok (w : world) : bool :=
  returns_normally (redis_set_raises w (network_test_key w) "test_value" 60)
  && answers (redis_get_result w (network_test_key w))
  && match redis_info_result w "server" with
     | Ret info => match info !! "redis_version" with Some _ => true | None => false end
     | Raise _ => false
     end.

(** Following a path of keys into a document. *)
Fixpoint jpath (keys : list string) (doc : json) : option json :=
  match keys with
  | [] => Some doc
  | key :: keys' =>
    match jget key doc with
    | Some doc' => jpath keys' doc'
    | None => None
    end
  end.

(** The field at [keys] of the document a call returned. *)
Definition returned {A} (keys : list string) (res : outcome response * A) : option json :=
  match fst res with
  | Ret resp =>
    match json_body resp with
    | Some doc => jpath keys doc
    | None => None
    end
  | Raise _ => None
  end.

(** What a call added to the trace. *)
Definition new_events {A} (m : M A) (w : world) (s : state) : list event :=
  drop (length (trace s)) (trace (snd (m w s))).

(** The calls that build a connection object: [psycopg2.connect] and
    [redis.Redis], the calls [connect_postgres] and [connect_redis] make. *)
Definition is_connect_attempt (ev : event) : bool :=
  match ev with
  | EvPgConnect _ | EvRedisNew _ => true
  | _ => false
  end.

(** How many connection objects a piece of code tries to build. *)
Definition reconnect_attempts {A} (m : M A) (w : world) (s : state) : nat :=
  length (filter (fun ev => is_connect_attempt ev = true) (new_events m w s)).

(** The calls the database probe of [network_test] makes on the
    connection object: none when there is no object, otherwise each call
    only when the one before returned. *)
Definition postgres_probe_calls (w : world) (s : state) : list event :=
  match postgres_conn s with
  | None => []
  | Some _ =>
    EvPgCursor ::
    if returns_normally (pg_cursor_raises w) then
      EvPgExecute "SELECT version(), current_timestamp" ::
      if returns_normally (pg_execute_raises w "SELECT version(), current_timestamp")
      then EvPgFetchone ::
           if answers (pg_fetchone_result w) then [EvPgCursorClose] else []
      else []
    else []
  end.

(** The calls the cache probe of [network_test] makes on the client
    object, likewise.  The client opens its socket by itself inside these
    calls when it has none. *)
Definition redis_probe_calls (w : world) (s : state) : list event :=
  match redis_client s with
  | None => []
  | Some _ =>
    EvRedisSet ("network_test_" +:+ pretty (clock w)) "test_value" 60 ::
    if returns_normally
         (redis_set_raises w ("network_test_" +:+ pretty (clock w)) "test_value" 60)
    then EvRedisGet ("network_test_" +:+ pretty (clock w)) ::
         if answers (redis_get_result w ("network_test_" +:+ pretty (clock w)))
         then [EvRedisInfo "server"] else []
    else []
  end.

(** The overall verdict a reader takes from the health document. *)
Inductive verdict : Type := Healthy | Degraded.

Definition verdict_of (res : outcome response * state) : option verdict :=
  match returned ["status"] res with
  | Some (JStr "healthy") => Some Healthy
  | Some (JStr "degraded") => Some Degraded
  | _ => None
  end.

Definition all_up (s : state) : bool :=
  bool_decide (health "postgres" s = Some true ∧ health "redis" s = Some true).


(** The process as [main] leaves it when both dependencies are down. *)
Definition started_degraded : state :=
  snd (main (sample_world false false true 0) (initial_state 0)).

(** The process as [main] leaves it when both dependencies are up. *)
Definition started_healthy : state :=
  snd (main (sample_world true true true 0) (initial_state 0)).

(** Every action of the run returned: each request got a response. *)
Fixpoint all_answered (l : list (action * world)) (s : state) : bool :=
  match l with
  | [] => true
  | (a, w) :: l' =>
    answers (fst (perform a w s)) && all_answered l' (snd (perform a w s))
  end.

(** The process after a start-up during which the cache was down. *)
Definition started_without_cache : state :=
  snd (main (sample_world true false true 0) (initial_state 0)).

(** The number of requests in a run. *)
Fixpoint requests_in (l : list (action * world)) : Z :=
  match l with
  | [] => 0
  | (Serve _, _) :: l' => 1 + requests_in l'
  | (RunThread _, _) :: l' => requests_in l'
  end.

(** The requests counted so far. *)
Definition served (s : state) : Z := request_count (network_data s).

(** What start-up decides about the dependencies. *)
Definition dependencies (s : state)
  : gmap string bool * gmap string Z * option pg_connection * option redis_object * bool :=
  (service_health (network_data s), DATABASE_CONNECTIONS (prom s),
   postgres_conn s, redis_client s, app_debug s).

(** A connection global that holds an object still holds one. *)
Definition keeps_connections : relation state :=
  fun s s' =>
    (is_Some (postgres_conn s) → is_Some (postgres_conn s'))
    ∧ (is_Some (redis_client s) → is_Some (redis_client s')).

(** The connection attempts among the events. *)
Definition connect_attempts (evs : list event) : list event :=
  filter (fun ev => is_connect_attempt ev = true) evs.

(** The loop of lines 236-239 with the bound [n]: the counter and the
    running total after [n] rounds. *)
Definition square_sum_loop (n : N) : Z * Z :=
  N.iter n (fun '(i, total) => (i + 1, total + i * i)) (0, 0).

(** One GET of [p] in each of the worlds [ws]. *)
Definition gets_of (p : string) (ws : list world) : list (action * world) :=
  (fun w => (Serve (get p), w)) <$> ws.

(** [api_metrics] builds its document: the host has a name, the version
    text has a word, and the health map has both entries. *)
Definition api_metrics_ok (w : world) (s : state) : bool :=
  answers (gethostname_result w)
  && match skip_space (sys_version w) with EmptyString => false | _ => true end
  && match health "postgres" s with Some _ => true | None => false end
  && match health "redis" s with Some _ => true | None => false end.

(** The label tuple under which [after_request] counts a request. *)
Definition request_labels (r : request) (resp : response) : string * string * string :=
  (method r, default "unknown" (request_endpoint r), pretty (status_code resp)).

(** ** Code that leaves a part of the state alone *)

(** [preserves R m]: whatever the world, the state [m] ends in is related
    by [R] to the state it started from. *)
Definition preserves {A} (R : relation state) (m : M A) : Prop :=
  ∀ w s, R s (snd (m w s)).

(** [same f]: the part [f] of the state is unchanged. *)
Definition same {A} (f : state → A) : relation state := fun s s' => f s = f s'.

(** The set of observed clients only gains elements. *)
Definition clients_grow : relation state := fun s s' => clients s ⊆ clients s'.

(** The trace only gains events, all of them satisfying [P]. *)
Definition adds_only (P : event → Prop) : relation state :=
  fun s s' => ∃ l, trace s' = trace s ++ l ∧ Forall P l.

Section preserves.
Context (R : relation state) `{!PreOrder R}.

Lemma preserves_ret {A} (a : A) : preserves R (ret a).
Proof. intros w s. reflexivity. Qed.

Lemma preserves_raise {A} (e : exn) : preserves R (@raise A e).
Proof. intros w s. reflexivity. Qed.

Lemma preserves_ask {A} (f : world → A) : preserves R (ask f).
Proof. intros w s. reflexivity. Qed.

Lemma preserves_gets {A} (f : state → A) : preserves R (gets f).
Proof. intros w s. reflexivity. Qed.

Lemma preserves_may_raise f : preserves R (may_raise f).
Proof. intros w s. unfold may_raise. destruct (f w); reflexivity. Qed.

Lemma preserves_answer {A} (f : world → outcome A) : preserves R (answer f).
Proof. intros w s. reflexivity. Qed.

Lemma preserves_getenv key dflt : preserves R (getenv key dflt).
Proof. apply preserves_ask. Qed.

Lemma preserves_modify f : (∀ s, R s (f s)) → preserves R (modify f).
Proof. intros Hf w s. apply Hf. Qed.

Lemma preserves_bind {A B} (m : M A) (k : A → M B) :
  preserves R m → (∀ a, preserves R (k a)) → preserves R (bind m k).
Proof.
  intros Hm Hk w s. unfold bind.
  specialize (Hm w s). destruct (m w s) as [[a|e] s1]; simpl in *.
  - etransitivity; [exact Hm | apply Hk].
  - exact Hm.
Qed.

Lemma preserves_try_except {A} (body : M A) (handler : exn → M A) :
  preserves R body → (∀ e, preserves R (handler e)) →
  preserves R (try_except body handler).
Proof.
  intros Hm Hk w s. unfold try_except.
  specialize (Hm w s). destruct (body w s) as [[a|e] s1]; simpl in *.
  - exact Hm.
  - etransitivity; [exact Hm | apply Hk].
Qed.

Lemma preserves_getitem {V} (d : gmap string V) key : preserves R (getitem d key).
Proof.
  unfold getitem. destruct (d !! key); [apply preserves_ret | apply preserves_raise].
Qed.

Lemma preserves_first_word v : preserves R (first_word v).
Proof.
  unfold first_word. destruct (skip_space v); [apply preserves_raise | apply preserves_ret].
Qed.
End preserves.

Ltac head_of t :=
  lazymatch t with
  | ?f _ => head_of f
  | _ => t
  end.

(** Breaks a goal [preserves R m] down along the code of [m]; what is
    left are the state updates, which [tac] has to settle. *)
Ltac preserves_step tac :=
  lazymatch goal with
  | |- PreOrder _ => apply _
  | |- ∀ _, _ => intro
  | |- preserves _ (match ?x with _ => _ end) => destruct x
  | |- preserves _ (if ?b then _ else _) => destruct b
  | |- preserves _ (view_functions ?ep _) => destruct ep; cbn [view_functions]
  | |- preserves _ (thread_target_body ?t) => destruct t; cbn [thread_target_body]
  | |- preserves _ _ =>
    first
      [ apply preserves_ret | apply preserves_raise | apply preserves_ask
      | apply preserves_gets | apply preserves_may_raise | apply preserves_answer
      | apply preserves_getenv | apply preserves_getitem | apply preserves_first_word
      | apply preserves_bind | apply preserves_try_except
      | apply preserves_modify; intros ?; tac
      | lazymatch goal with
        | |- preserves _ ?m => let h := head_of m in progress unfold h
        end ]
  end.

Ltac solve_preserves tac := repeat (try assumption; preserves_step tac).

#[local] Instance same_preorder {A} (f : state → A) : PreOrder (same f).
Proof. split; [intros s; reflexivity | intros s1 s2 s3; unfold same; congruence]. Qed.

#[local] Instance clients_grow_preorder : PreOrder clients_grow.
Proof. split; unfold clients_grow; [intros s | intros s1 s2 s3]; set_solver. Qed.

(** ** Reading documents *)

Lemma jget_json_of_bools (m : gmap string bool) (name : string) :
  jget name (json_of_bools m) = JBool <$> m !! name.
Proof.
  unfold json_of_bools, jget.
  rewrite list_to_map_fmap, list_to_map_to_list. apply lookup_fmap.
Qed.

(** ** The health endpoint *)

(** C1, as the code has it: whatever the state of the service-health map,
    the health endpoint answers 200 with status "healthy"; the states of
    the dependencies are reported next to it, under "services", exactly as
    the map holds them, and the call changes nothing. *)
Theorem health_check_always_healthy (w : world) (s : state) :
  fst (health_check w s) = Ret (jsonify (JObj
    [ ("status", JStr "healthy");
      ("timestamp", JTime (clock w));
      ("services", json_of_bools (service_health (network_data s)));
      ("python_version", JStr (sys_version w)) ]))
  ∧ snd (health_check w s) = s
  ∧ verdict_of (health_check w s) = Some Healthy
  ∧ ∀ name, (returned ["services"; name] (health_check w s)) = JBool <$> health name s.
Proof.
  repeat split.
  intros name. unfold returned, health. cbn.
  rewrite lookup_insert_ne by done. rewrite lookup_insert_ne by done.
  rewrite lookup_insert_eq. unfold jpath.
  rewrite jget_json_of_bools. by destruct (_ !! name).
Qed.

(** C1, counterexample: with both dependencies down the endpoint still
    reports "healthy", where the specification asks for Degraded. *)
Lemma health_check_healthy_when_all_down :
  all_up started_degraded = false
  ∧ verdict_of (health_check (sample_world false false true 60) started_degraded)
    = Some Healthy
  ∧ ¬ (verdict_of (health_check (sample_world false false true 60) started_degraded)
       = Some Healthy ↔ all_up started_degraded = true).
Proof.
  assert (Hdown : all_up started_degraded = false) by (vm_compute; reflexivity).
  assert (Hok : verdict_of (health_check (sample_world false false true 60) started_degraded)
                = Some Healthy) by (vm_compute; reflexivity).
  split; [exact Hdown|]. split; [exact Hok|].
  intros [Hiff _]. specialize (Hiff Hok). congruence.
Qed.

(** ** Running the code in a goal *)

(** Unfolds the monad and the module's functions, leaving the answers of
    the world and the operations on maps, sets and strings in place. *)
Ltac run_code :=
  cbv [main app_run connect_postgres connect_redis psycopg2_connect redis_Redis
       redis_ping before_request after_request health_check network_info
       api_metrics network_test network_test_postgres network_test_redis
       simulate_load prometheus_metrics
       test_external_connectivity get_memory_usage background_task
       view_functions send_static_file routing_exception
       preprocess_request dispatch_request handle_user_exception
       process_response finalize_request full_dispatch_request handle_exception
       wsgi_app thread_target_body run_thread perform getitem jsonify
       try_except bind ret raise ask gets modify may_raise answer emit print getenv
       DATABASE_CONNECTIONS_set ACTIVE_CONNECTIONS_add REQUEST_COUNT_inc
       set_service_health
       with_prom with_network_data with_postgres_conn with_redis_client
       with_app_debug with_threads with_trace
       prom network_data postgres_conn redis_client app_debug threads trace
       REQUEST_COUNT REQUEST_DURATION ACTIVE_CONNECTIONS DATABASE_CONNECTIONS
       start_time request_count unique_clients service_health
       health connection_gauge active clients observations counted
       new_events fst snd].

Ltac destruct_state s :=
  destruct s as [[cnt dur act dbc] [t0 reqs cl sh] pgc rdc dbg thr tr].

(** Reduces [drop (length t) (t ++ l)], the events added to a trace [t]. *)
Ltac added_events :=
  rewrite <- ?app_assoc; rewrite ?drop_app_length; rewrite ?drop_all.

(** ** Connecting *)

Lemma connect_postgres_returns (w : world) (s : state) :
  fst (connect_postgres w s) = Ret (pg_connects w)
  ∧ EvPgConnect (configured_pg_params w) ∈ new_events connect_postgres w s
  ∧ if pg_connects w
    then health "postgres" (snd (connect_postgres w s)) = Some true
         ∧ connection_gauge "postgres" (snd (connect_postgres w s)) = Some 1
    else health "postgres" (snd (connect_postgres w s)) = Some false
         ∧ connection_gauge "postgres" (snd (connect_postgres w s)) = Some 0.
Proof.
  destruct_state s. unfold pg_connects, configured_pg_params.
  run_code.
  destruct (psycopg2_connect_raises w _); cbn [returns_normally];
    added_events; rewrite !lookup_insert_eq;
    (split; [reflexivity|]); (split; [set_solver|]); done.
Qed.

Lemma connect_redis_returns (w : world) (s : state) :
  fst (connect_redis w s) = Ret (redis_connects w)
  ∧ EvRedisNew (configured_redis_params w) ∈ new_events connect_redis w s
  ∧ if redis_connects w
    then health "redis" (snd (connect_redis w s)) = Some true
         ∧ connection_gauge "redis" (snd (connect_redis w s)) = Some 1
    else health "redis" (snd (connect_redis w s)) = Some false
         ∧ connection_gauge "redis" (snd (connect_redis w s)) = Some 0.
Proof.
  destruct_state s. unfold redis_connects, redis_builds, configured_redis_params.
  run_code.
  destruct (redis_Redis_raises w _); cbn [returns_normally andb];
    [|destruct (redis_ping_raises w); cbn [returns_normally]];
    added_events; rewrite !lookup_insert_eq;
    (split; [reflexivity|]); (split; [set_solver|]); done.
Qed.

(** C3: neither connect function ever raises.  Each makes its attempt
    with the configured arguments and returns [True] exactly when the
    attempt (for the cache: building the client and the ping) went
    through, with the health entry set and the gauge at 1; otherwise it
    returns [False] with the health entry [False] and the gauge at 0. *)
Theorem connect_never_raises (w : world) (s : state) :
  (fst (connect_postgres w s) = Ret (pg_connects w)
   ∧ EvPgConnect (configured_pg_params w) ∈ new_events connect_postgres w s
   ∧ if pg_connects w
     then health "postgres" (snd (connect_postgres w s)) = Some true
          ∧ connection_gauge "postgres" (snd (connect_postgres w s)) = Some 1
     else health "postgres" (snd (connect_postgres w s)) = Some false
          ∧ connection_gauge "postgres" (snd (connect_postgres w s)) = Some 0)
  ∧ (fst (connect_redis w s) = Ret (redis_connects w)
     ∧ EvRedisNew (configured_redis_params w) ∈ new_events connect_redis w s
     ∧ if redis_connects w
       then health "redis" (snd (connect_redis w s)) = Some true
            ∧ connection_gauge "redis" (snd (connect_redis w s)) = Some 1
       else health "redis" (snd (connect_redis w s)) = Some false
            ∧ connection_gauge "redis" (snd (connect_redis w s)) = Some 0).
Proof.
  split; [apply connect_postgres_returns | apply connect_redis_returns].
Qed.

(** What the two functions leave in the connection globals: the database
    connection is stored only when the attempt succeeds, the cache client
    as soon as it is built, before the ping. *)
Lemma connect_globals (w : world) (s : state) :
  postgres_conn (snd (connect_postgres w s))
  = (if pg_connects w then Some (PgConnection (configured_pg_params w))
     else postgres_conn s)
  ∧ redis_client (snd (connect_redis w s))
    = (if redis_builds w then Some (RedisObject (configured_redis_params w))
       else redis_client s).
Proof.
  destruct_state s.
  unfold pg_connects, redis_connects, redis_builds,
    configured_pg_params, configured_redis_params.
  split; run_code.
  - by destruct (psycopg2_connect_raises w _).
  - destruct (redis_Redis_raises w _); [done|].
    by destruct (redis_ping_raises w).
Qed.

(** ** Start-up *)

(** C5: whatever the world answers, [main] runs to its end without
    raising, its last act is to start serving on 0.0.0.0:5000, and the
    health map then holds, for each dependency, whether its connection
    succeeded; a failed one is left at [False]. *)
Theorem startup_always_serves (w : world) (s : state) :
  fst (main w s) = Ret tt
  ∧ last (trace (snd (main w s))) = Some (EvAppRun "0.0.0.0" 5000 true)
  ∧ health "postgres" (snd (main w s)) = Some (pg_connects w)
  ∧ health "redis" (snd (main w s)) = Some (redis_connects w).
Proof.
  destruct_state s.
  unfold pg_connects, redis_connects, redis_builds,
    configured_pg_params, configured_redis_params.
  run_code.
  destruct (psycopg2_connect_raises w _); cbn [returns_normally];
    (destruct (redis_Redis_raises w _); cbn [returns_normally andb];
     [|destruct (redis_ping_raises w); cbn [returns_normally]]);
    rewrite last_snoc;
    rewrite ?lookup_insert_eq;
    rewrite ?(lookup_insert_ne _ "redis" "postgres") by done;
    rewrite ?lookup_insert_eq; done.
Qed.

(** ** The set of observed clients *)

Ltac clients_update := unfold clients_grow, clients; cbn; set_solver.

Lemma wsgi_app_clients_grow (r : request) : preserves clients_grow (wsgi_app r).
Proof. solve_preserves clients_update. Qed.

Lemma after_preprocess_clients_grow (r : request) :
  preserves clients_grow (after_preprocess r).
Proof. solve_preserves clients_update. Qed.

Lemma wsgi_app_after_preprocess (r : request) (w : world) (s : state) :
  wsgi_app r w s = after_preprocess r w (snd (before_request r w s)).
Proof. reflexivity. Qed.

Lemma perform_clients_grow (a : action) : preserves clients_grow (perform a).
Proof. pose proof wsgi_app_clients_grow. destruct a; solve_preserves clients_update. Qed.

Lemma main_clients_grow : preserves clients_grow main.
Proof. solve_preserves clients_update. Qed.

(** ** The network test *)

#[local] Instance adds_only_preorder (P : event → Prop) : PreOrder (adds_only P).
Proof.
  split.
  - intros s. exists []. split; [by rewrite app_nil_r | constructor].
  - intros s1 s2 s3 (l1 & H1 & HP1) (l2 & H2 & HP2). exists (l1 ++ l2).
    split; [by rewrite H2, H1, app_assoc | by apply Forall_app].
Qed.

Lemma adds_only_new_events {A} (P : event → Prop) (m : M A) (w : world) (s : state) :
  adds_only P s (snd (m w s)) → Forall P (new_events m w s).
Proof.
  intros (l & Hl & HP). unfold new_events. by rewrite Hl, drop_app_length.
Qed.

Ltac trace_update :=
  first
    [ by (exists []; split; [by rewrite app_nil_r | constructor])
    | by (eexists [_]; split; [reflexivity | by repeat constructor]) ].

Lemma network_test_adds_no_connect :
  preserves (adds_only (fun ev => is_connect_attempt ev = false)) network_test.
Proof. solve_preserves trace_update. Qed.

Lemma network_test_postgres_status (w : world) (s : state) :
  ∃ doc, fst (network_test_postgres w s) = Ret doc
    ∧ jget "status" doc
      = Some (JStr (match postgres_conn s with
                    | None => "not_connected"
                    | Some _ => if pg_probe_ok w then "connected" else "error"
                    end)).
Proof.
  destruct_state s. unfold pg_probe_ok. run_code.
  destruct pgc; [|by eexists].
  destruct (pg_cursor_raises w); [by eexists|].
  destruct (pg_execute_raises w _); [by eexists|].
  destruct (pg_fetchone_result w) as [[[version timestamp]|]|];
    destruct (pg_cursor_close_raises w); by eexists.
Qed.

Lemma network_test_redis_status (w : world) (s : state) :
  ∃ doc, fst (network_test_redis w s) = Ret doc
    ∧ jget "status" doc
      = Some (JStr (match redis_client s with
                    | None => "not_connected"
                    | Some _ => if redis_probe_ok w then "connected" else "error"
                    end)).
Proof.
  destruct_state s. unfold redis_probe_ok, network_test_key. run_code.
  destruct rdc; [|by eexists].
  destruct (redis_set_raises w _ _ _); [by eexists|].
  destruct (redis_get_result w _); [|by eexists].
  destruct (redis_info_result w _) as [info|]; [|by eexists].
  destruct (info !! "redis_version"); by eexists.
Qed.

Lemma test_external_connectivity_returns (w : world) (s : state) :
  ∃ doc, fst (test_external_connectivity w s) = Ret doc.
Proof.
  destruct_state s. run_code. destruct (create_connection_raises w _ _ _); by eexists.
Qed.

Lemma network_test_postgres_same_redis_client :
  preserves (same redis_client) network_test_postgres.
Proof. solve_preserves ltac:(reflexivity). Qed.

Lemma jget_here (key : string) (doc : json) (fields : list (string * json)) :
  jget key (JObj ((key, doc) :: fields)) = Some doc.
Proof. cbn. apply lookup_insert_eq. Qed.

Lemma jget_next (key key' : string) (doc : json) (fields : list (string * json)) :
  key ≠ key' → jget key (JObj ((key', doc) :: fields)) = jget key (JObj fields).
Proof. intros Hne. cbn. by apply lookup_insert_ne. Qed.

Ltac jget_fields :=
  repeat first [ rewrite jget_here | rewrite jget_next by done ].

Lemma network_test_status (w : world) (s : state) :
  returned ["tests"; "postgres"; "status"] (network_test w s)
  = Some (JStr (match postgres_conn s with
                | None => "not_connected"
                | Some _ => if pg_probe_ok w then "connected" else "error"
                end))
  ∧ returned ["tests"; "redis"; "status"] (network_test w s)
    = Some (JStr (match redis_client s with
                  | None => "not_connected"
                  | Some _ => if redis_probe_ok w then "connected" else "error"
                  end)).
Proof.
  destruct (network_test_postgres_status w s) as (d1 & E1 & S1).
  pose proof (network_test_postgres_same_redis_client w s) as Hrc.
  destruct (network_test_redis_status w (snd (network_test_postgres w s)))
    as (d2 & E2 & S2).
  rewrite <- Hrc in S2.
  unfold returned, network_test, bind.
  destruct (network_test_postgres w s) as [o1 s1]; simpl in E1, E2; subst o1.
  destruct (network_test_redis w s1) as [o2 s2]; simpl in E2; subst o2.
  destruct (test_external_connectivity_returns w s2) as (d3 & E3).
  destruct (test_external_connectivity w s2) as [o3 s3]; simpl in E3; subst o3.
  cbn [ask ret fst jsonify json_body body jpath].
  jget_fields. by rewrite S1, S2.
Qed.

Lemma filter_none (f : event → bool) (l : list event) :
  Forall (fun ev => f ev = false) l → filter (fun ev => f ev = true) l = [].
Proof.
  induction 1 as [|ev l Hev _ IH]; [done|].
  rewrite filter_cons_False by congruence. exact IH.
Qed.

Lemma network_test_same_connections :
  preserves (same (fun s => (postgres_conn s, redis_client s,
                             service_health (network_data s),
                             DATABASE_CONNECTIONS (prom s)))) network_test.
Proof. solve_preserves ltac:(reflexivity). Qed.

Lemma network_test_postgres_trace (w : world) (s : state) :
  trace (snd (network_test_postgres w s)) = trace s ++ postgres_probe_calls w s.
Proof.
  destruct_state s. unfold postgres_probe_calls. run_code.
  destruct pgc; [|by rewrite app_nil_r].
  destruct (pg_cursor_raises w); [by rewrite <- ?app_assoc|].
  destruct (pg_execute_raises w _); [by rewrite <- ?app_assoc|].
  destruct (pg_fetchone_result w) as [[[version timestamp]|]|];
    [| |by rewrite <- ?app_assoc];
    destruct (pg_cursor_close_raises w); by rewrite <- ?app_assoc.
Qed.

Lemma network_test_redis_trace (w : world) (s : state) :
  trace (snd (network_test_redis w s)) = trace s ++ redis_probe_calls w s.
Proof.
  destruct_state s. unfold redis_probe_calls. run_code.
  destruct rdc; [|by rewrite app_nil_r].
  destruct (redis_set_raises w _ _ _); [by rewrite <- ?app_assoc|].
  destruct (redis_get_result w _); [|by rewrite <- ?app_assoc].
  destruct (redis_info_result w _) as [info|]; [|by rewrite <- ?app_assoc].
  destruct (info !! "redis_version"); by rewrite <- ?app_assoc.
Qed.

Lemma test_external_connectivity_trace (w : world) (s : state) :
  trace (snd (test_external_connectivity w s))
  = trace s ++ [EvSocketConnect "8.8.8.8" 53 3].
Proof.
  destruct_state s. run_code. by destruct (create_connection_raises w _ _ _).
Qed.

Lemma network_test_calls (w : world) (s : state) :
  new_events network_test w s
  = postgres_probe_calls w s ++ redis_probe_calls w s
    ++ [EvSocketConnect "8.8.8.8" 53 3].
Proof.
  unfold new_events.
  destruct (network_test_postgres_status w s) as (d1 & E1 & _).
  pose proof (network_test_postgres_trace w s) as T1.
  pose proof (network_test_postgres_same_redis_client w s) as Hrc. unfold same in Hrc.
  unfold network_test, bind.
  destruct (network_test_postgres w s) as [o1 s1]; cbn [fst snd] in *; subst o1.
  destruct (network_test_redis_status w s1) as (d2 & E2 & _).
  pose proof (network_test_redis_trace w s1) as T2.
  destruct (network_test_redis w s1) as [o2 s2]; cbn [fst snd] in *; subst o2.
  destruct (test_external_connectivity_returns w s2) as (d3 & E3).
  pose proof (test_external_connectivity_trace w s2) as T3.
  destruct (test_external_connectivity w s2) as [o3 s3]; cbn [fst snd] in *; subst o3.
  cbn [ask ret snd]. rewrite T3, T2, T1.
  assert (redis_probe_calls w s1 = redis_probe_calls w s) as ->
    by (unfold redis_probe_calls; by rewrite Hrc).
  rewrite <- !app_assoc. apply drop_app_length.
Qed.

(** C4, as the code has it: the liveness check of [network_test] never
    reconnects.  It builds no connection object and leaves the connection
    objects, the health map and the connection gauges as they were.  The
    calls it makes are exactly the probe calls: on a dependency whose
    connection object is absent none at all, and it is reported
    "not_connected" without being probed; on one whose object is there
    each probe call only when the one before returned, with no second
    try, and it is reported "error" when a probe call raises and
    "connected" when the probe goes through. *)
Theorem network_test_never_reconnects (w : world) (s : state) :
  reconnect_attempts network_test w s = 0%nat
  ∧ postgres_conn (snd (network_test w s)) = postgres_conn s
  ∧ redis_client (snd (network_test w s)) = redis_client s
  ∧ service_health (network_data (snd (network_test w s)))
    = service_health (network_data s)
  ∧ DATABASE_CONNECTIONS (prom (snd (network_test w s)))
    = DATABASE_CONNECTIONS (prom s)
  ∧ returned ["tests"; "postgres"; "status"] (network_test w s)
    = Some (JStr (match postgres_conn s with
                  | None => "not_connected"
                  | Some _ => if pg_probe_ok w then "connected" else "error"
                  end))
  ∧ returned ["tests"; "redis"; "status"] (network_test w s)
    = Some (JStr (match redis_client s with
                  | None => "not_connected"
                  | Some _ => if redis_probe_ok w then "connected" else "error"
                  end))
  ∧ new_events network_test w s
    = match postgres_conn s with
      | None => []
      | Some _ =>
        EvPgCursor ::
        if returns_normally (pg_cursor_raises w) then
          EvPgExecute "SELECT version(), current_timestamp" ::
          if returns_normally
               (pg_execute_raises w "SELECT version(), current_timestamp")
          then EvPgFetchone ::
               if answers (pg_fetchone_result w) then [EvPgCursorClose] else []
          else []
        else []
      end
      ++ match redis_client s with
         | None => []
         | Some _ =>
           EvRedisSet ("network_test_" +:+ pretty (clock w)) "test_value" 60 ::
           if returns_normally
                (redis_set_raises w ("network_test_" +:+ pretty (clock w))
                   "test_value" 60)
           then EvRedisGet ("network_test_" +:+ pretty (clock w)) ::
                if answers (redis_get_result w ("network_test_" +:+ pretty (clock w)))
                then [EvRedisInfo "server"] else []
           else []
         end
      ++ [EvSocketConnect "8.8.8.8" 53 3].
Proof.
  pose proof (network_test_same_connections w s) as Hsame.
  unfold same in Hsame. injection Hsame as Hpg Hrd Hsh Hdb.
  split.
  { unfold reconnect_attempts. rewrite filter_none; [done|].
    apply adds_only_new_events, network_test_adds_no_connect. }
  repeat (split; [done|]).
  destruct (network_test_status w s) as [Hpgs Hrds].
  split; [exact Hpgs|]. split; [exact Hrds|].
  apply network_test_calls.
Qed.

(** C4, counterexample: on a process whose database connection is absent
    the check reports "not_connected" having made no connection attempt,
    where the specification asks for exactly one reconnect; the same holds
    when the connection is there and the probe raises. *)
Lemma network_test_absent_connection_no_reconnect :
  postgres_conn started_degraded = None
  ∧ returned ["tests"; "postgres"; "status"]
      (network_test (sample_world false false true 60) started_degraded)
    = Some (JStr "not_connected")
  ∧ reconnect_attempts network_test (sample_world false false true 60) started_degraded
    ≠ 1%nat
  ∧ is_Some (postgres_conn started_without_cache)
  ∧ returned ["tests"; "postgres"; "status"]
      (network_test (sample_world false false true 60) started_without_cache)
    = Some (JStr "error")
  ∧ reconnect_attempts network_test (sample_world false false true 60)
      started_without_cache
    ≠ 1%nat.
Proof.
  repeat split; try (vm_compute; reflexivity); try (vm_compute; discriminate).
  vm_compute. eexists. reflexivity.
Qed.

(** ** A client whose ping failed *)

Lemma background_task_events (w : world) (s : state) :
  new_events background_task w s
  = match redis_client s with
    | None => []
    | Some _ =>
      [EvRedisSetex ("load_test_" +:+ pretty (clock w)) 300 (pretty background_total)]
    end.
Proof.
  destruct_state s. run_code. destruct rdc; [|by added_events].
  destruct (redis_setex_raises w _ _ _); by added_events.
Qed.

(** C10, as the code has it: when [connect_redis] builds the client and
    the ping raises, the function returns [False] and marks the cache down,
    yet [redis_client] holds the client that was built.  From then on
    [network_test] tries its cache operations and reports "connected" when
    they go through and "error" when one raises, never "not_connected",
    and the background task attempts its cache write. *)
Theorem failed_ping_keeps_client (w w' : world) (s : state) :
  redis_builds w = true →
  returns_normally (redis_ping_raises w) = false →
  fst (connect_redis w s) = Ret false
  ∧ health "redis" (snd (connect_redis w s)) = Some false
  ∧ redis_client (snd (connect_redis w s))
    = Some (RedisObject (configured_redis_params w))
  ∧ returned ["tests"; "redis"; "status"] (network_test w' (snd (connect_redis w s)))
    = Some (JStr (if redis_probe_ok w' then "connected" else "error"))
  ∧ new_events background_task w' (snd (connect_redis w s))
    = [EvRedisSetex ("load_test_" +:+ pretty (clock w')) 300 (pretty background_total)].
Proof.
  intros Hbuilt Hping.
  destruct (connect_redis_returns w s) as (Hret & _ & Hdown).
  destruct (connect_globals w s) as [_ Hclient].
  unfold redis_connects in *. rewrite Hbuilt, Hping in *. cbn [andb] in *.
  destruct Hdown as [Hhealth _].
  repeat (split; [done|]).
  split.
  - destruct (network_test_status w' (snd (connect_redis w s))) as [_ ->].
    by rewrite Hclient.
  - by rewrite background_task_events, Hclient.
Qed.

Lemma failed_ping_keeps_client_witness :
  redis_builds (sample_world true false true 0) = true
  ∧ returns_normally (redis_ping_raises (sample_world true false true 0)) = false
  ∧ redis_client (snd (connect_redis (sample_world true false true 0) (initial_state 0)))
    = Some (RedisObject (configured_redis_params (sample_world true false true 0)))
  ∧ returned ["tests"; "redis"; "status"]
      (network_test (sample_world true false true 60)
         (snd (connect_redis (sample_world true false true 0) (initial_state 0))))
    = Some (JStr (if redis_probe_ok (sample_world true false true 60)
                  then "connected" else "error")).
Proof.
  split; [reflexivity|]. split; [reflexivity|].
  pose proof (failed_ping_keeps_client (sample_world true false true 0)
                (sample_world true false true 60) (initial_state 0)
                eq_refl eq_refl) as (_ & _ & Hclient & Hstatus & _).
  split; [exact Hclient | exact Hstatus].
Defined.

(** C10, counterexample: the cache was down at start-up, so the ping
    raised and the client stayed; once the cache is back, [network_test]
    reports it "connected", not "error", while the health map still says
    down. *)
Lemma failed_ping_then_recovery_reports_connected :
  is_Some (redis_client started_without_cache)
  ∧ health "redis" started_without_cache = Some false
  ∧ returned ["tests"; "redis"; "status"]
      (network_test (sample_world true true true 60) started_without_cache)
    = Some (JStr "connected")
  ∧ returned ["tests"; "redis"; "status"]
      (network_test (sample_world true true true 60) started_without_cache)
    ≠ Some (JStr "error").
Proof.
  split; [vm_compute; eexists; reflexivity|].
  split; [vm_compute; reflexivity|].
  split; [vm_compute; reflexivity|].
  vm_compute. discriminate.
Qed.

(** ** Runs of the serving process *)

Lemma run_preserves (R : relation state) `{!PreOrder R} :
  (∀ a, preserves R (perform a)) → ∀ l s, R s (run l s).
Proof.
  intros Hstep l. induction l as [|[a w] l IH]; intros s; cbn [run].
  - reflexivity.
  - etransitivity; [apply (Hstep a w s) | apply IH].
Qed.

Lemma before_request_runs (r : request) (w : world) (s : state) :
  fst (before_request r w s) = Ret tt
  ∧ client_ip_of r ∈ clients (snd (before_request r w s))
  ∧ active (snd (before_request r w s)) = active s + 1
  ∧ observations (snd (before_request r w s)) = observations s.
Proof. destruct_state s. run_code. repeat split. set_solver. Qed.

Lemma after_request_runs (r : request) (resp : response) (w : world) (s : state) :
  fst (after_request r resp w s) = Ret resp
  ∧ active (snd (after_request r resp w s)) = active s - 1
  ∧ counted (method r, default "unknown" (request_endpoint r),
             pretty (status_code resp)) (snd (after_request r resp w s))
    = counted (method r, default "unknown" (request_endpoint r),
               pretty (status_code resp)) s + 1
  ∧ observations (snd (after_request r resp w s)) = observations s.
Proof.
  destruct_state s. run_code. repeat split. by rewrite lookup_insert_eq.
Qed.

(** C7: the set of observed clients only grows.  The start step of a
    request puts the request's client identifier into the set, so it is
    there once the request has been handled; no step of the process
    (serving a request, running a background thread, start-up) takes an
    element out, so over every run the set after is a superset of the set
    before and has at least as many elements. *)
Theorem unique_clients_monotone :
  (∀ r w s, client_ip_of r ∈ clients (snd (before_request r w s)))
  ∧ (∀ r w s, client_ip_of r ∈ clients (snd (wsgi_app r w s)))
  ∧ (∀ a w s, clients s ⊆ clients (snd (perform a w s)))
  ∧ (∀ w s, clients s ⊆ clients (snd (main w s)))
  ∧ (∀ l s, clients s ⊆ clients (run l s)
            ∧ (size (clients s) ≤ size (clients (run l s)))%nat).
Proof.
  split; [intros r w s; apply before_request_runs|].
  split.
  { intros r w s. rewrite wsgi_app_after_preprocess.
    apply (after_preprocess_clients_grow r w (snd (before_request r w s))).
    apply before_request_runs. }
  split; [intros a w s; apply perform_clients_grow|].
  split; [intros w s; apply main_clients_grow|].
  intros l s.
  assert (clients s ⊆ clients (run l s)) as Hsub
    by (apply (run_preserves clients_grow), perform_clients_grow).
  split; [exact Hsub | by apply subseteq_size].
Qed.

(** ** The request metrics *)

Lemma perform_same_observations (a : action) :
  preserves (same observations) (perform a).
Proof. destruct a; solve_preserves ltac:(reflexivity). Qed.

Lemma main_same_observations : preserves (same observations) main.
Proof. solve_preserves ltac:(reflexivity). Qed.

(** C2, on the code: the finish step [after_request] returns the response
    it was given, takes one off the active-requests gauge and adds one to
    the request counter of the request's method, endpoint and status, but
    it observes nothing into the duration histogram.  Nothing else does
    either: over every run of the started process the histogram has no
    observation. *)
Theorem after_request_records_no_duration :
  (∀ r resp w s,
     fst (after_request r resp w s) = Ret resp
     ∧ active (snd (after_request r resp w s)) = active s - 1
     ∧ counted (method r, default "unknown" (request_endpoint r),
                pretty (status_code resp)) (snd (after_request r resp w s))
       = counted (method r, default "unknown" (request_endpoint r),
                  pretty (status_code resp)) s + 1
     ∧ observations (snd (after_request r resp w s)) = observations s)
  ∧ (∀ l w t0, observations (run l (snd (main w (initial_state t0)))) = [])
  ∧ fst (wsgi_app (get "/health") (sample_world true true true 60) started_healthy)
    = fst (health_check (sample_world true true true 60) started_healthy)
  ∧ observations
      (run [(Serve (get "/health"), sample_world true true true 60)] started_healthy)
    = [].
Proof.
  split; [intros r resp w s; apply after_request_runs|].
  assert (∀ l w t0, observations (run l (snd (main w (initial_state t0)))) = [])
    as Hnever.
  { intros l w t0.
    rewrite <- (run_preserves (same observations) perform_same_observations l).
    by rewrite <- (main_same_observations w (initial_state t0)). }
  split; [exact Hnever|]. split; [vm_compute; reflexivity | apply Hnever].
Qed.

(** ** The active-requests gauge *)

Lemma dispatch_same_active (r : request) :
  preserves (same active) (try_except (dispatch_request r) handle_user_exception).
Proof. solve_preserves ltac:(reflexivity). Qed.

(** One request through Flask: the gauge is back where it was when the
    request got a response, and one higher when the exception of the view
    left [wsgi_app]. *)
Lemma wsgi_app_active (r : request) (w : world) (s : state) :
  active (snd (wsgi_app r w s))
  = if answers (fst (wsgi_app r w s)) then active s else active s + 1.
Proof.
  rewrite wsgi_app_after_preprocess.
  destruct (before_request_runs r w s) as (_ & _ & Hinc & _).
  revert Hinc. generalize (snd (before_request r w s)). intros s1 Hinc.
  pose proof (dispatch_same_active r w s1) as Hview. unfold same in Hview.
  unfold after_preprocess.
  remember (try_except (dispatch_request r) handle_user_exception) as inner.
  unfold handle_exception, finalize_request, process_response,
    try_except, bind, gets, raise, ret.
  destruct (inner w s1) as [[rv|e] s2]; cbn [snd] in Hview.
  - destruct (after_request_runs r rv w s2) as (Hret & Hdec & _).
    destruct (after_request r rv w s2) as [o3 s3]; cbn [fst snd] in *; subst o3.
    cbn [fst snd answers]. lia.
  - destruct (app_debug s2); cbn [answers fst snd]; [lia|].
    destruct (after_request_runs r {| body := ErrorPage 500; status_code := 500 |} w s2)
      as (Hret & Hdec & _).
    destruct (after_request r _ w s2) as [o3 s3]; cbn [fst snd] in *; subst o3.
    cbn [fst snd answers]. lia.
Qed.

Lemma run_thread_same_active (i : nat) :
  preserves (same active) (perform (RunThread i)).
Proof. solve_preserves ltac:(reflexivity). Qed.


(** Over a run in which every request got a response the gauge ends where
    it started. *)
Lemma run_active_balanced (l : list (action * world)) (s : state) :
  all_answered l s = true → active (run l s) = active s.
Proof.
  revert s. induction l as [|[a w] l IH]; intros s Hall; [done|].
  cbn [run all_answered] in *. apply andb_prop in Hall as [Hone Hrest].
  rewrite (IH _ Hrest). destruct a as [r|i].
  - assert (answers (fst (wsgi_app r w s)) = true) as Hresp.
    { revert Hone. unfold perform, bind. by destruct (wsgi_app r w s) as [[?|?] ?]. }
    pose proof (wsgi_app_active r w s) as Hact. rewrite Hresp in Hact.
    revert Hact. unfold perform, bind. by destruct (wsgi_app r w s) as [[?|?] ?].
  - symmetry. apply (run_thread_same_active i w s).
Qed.

(** C6, on the code: the process runs with [debug=True], so when a view
    raises, Flask lets the exception out of [wsgi_app] and the
    [after_request] functions are not run.  A request to /network-info
    while [socket.gethostname()] raises leaves the gauge one above its
    value before the request; the count is never given back. *)
Theorem active_gauge_leaks_when_view_raises :
  app_debug started_healthy = true
  ∧ fst (wsgi_app (get "/network-info") (sample_world true true false 60) started_healthy)
    = Raise (refused "gethostname")
  ∧ active (snd (wsgi_app (get "/network-info") (sample_world true true false 60)
                   started_healthy))
    = active started_healthy + 1
  ∧ active (run [ (Serve (get "/network-info"), sample_world true true false 60);
                  (Serve (get "/health"), sample_world true true true 61) ]
              started_healthy)
    = active started_healthy + 1.
Proof. repeat split; vm_compute; reflexivity. Qed.

(** ** Background tasks *)



(** ** What a request does to the bookkeeping *)

Lemma after_preprocess_same_bookkeeping (r : request) :
  preserves (same (fun s => (served s, clients s))) (after_preprocess r).
Proof. solve_preserves ltac:(reflexivity). Qed.

Lemma perform_thread_same_bookkeeping (i : nat) :
  preserves (same (fun s => (served s, clients s))) (perform (RunThread i)).
Proof. solve_preserves ltac:(reflexivity). Qed.

Lemma main_same_bookkeeping :
  preserves (same (fun s => (served s, clients s))) main.
Proof. solve_preserves ltac:(reflexivity). Qed.

Lemma before_request_bookkeeping (r : request) (w : world) (s : state) :
  served (snd (before_request r w s)) = served s + 1
  ∧ clients (snd (before_request r w s)) = {[client_ip_of r]} ∪ clients s.
Proof. by destruct_state s. Qed.

Lemma wsgi_app_bookkeeping (r : request) (w : world) (s : state) :
  served (snd (wsgi_app r w s)) = served s + 1
  ∧ clients (snd (wsgi_app r w s)) = {[client_ip_of r]} ∪ clients s.
Proof.
  rewrite wsgi_app_after_preprocess.
  destruct (before_request_bookkeeping r w s) as [Hserved1 Hclients1].
  revert Hserved1 Hclients1. generalize (snd (before_request r w s)).
  intros s1 Hserved1 Hclients1.
  pose proof (after_preprocess_same_bookkeeping r w s1) as Hsame.
  pose proof (f_equal fst Hsame) as Hserved. pose proof (f_equal snd Hsame) as Hclients.
  cbn [fst snd] in Hserved, Hclients. by rewrite <- Hserved, <- Hclients.
Qed.

Lemma perform_served (a : action) (w : world) (s : state) :
  served (snd (perform a w s))
  = served s + match a with Serve _ => 1 | RunThread _ => 0 end.
Proof.
  destruct a as [r|i].
  - destruct (wsgi_app_bookkeeping r w s) as [Hserved _]. revert Hserved.
    unfold perform, bind. by destruct (wsgi_app r w s) as [[?|?] ?].
  - pose proof (perform_thread_same_bookkeeping i w s) as Hsame.
    apply (f_equal fst) in Hsame. cbn [fst] in Hsame. lia.
Qed.

Lemma perform_clients (a : action) (w : world) (s : state) :
  clients (snd (perform a w s))
  = match a with
    | Serve r => {[client_ip_of r]} ∪ clients s
    | RunThread _ => clients s
    end.
Proof.
  destruct a as [r|i].
  - destruct (wsgi_app_bookkeeping r w s) as [_ Hclients]. revert Hclients.
    unfold perform, bind. by destruct (wsgi_app r w s) as [[?|?] ?].
  - pose proof (perform_thread_same_bookkeeping i w s) as Hsame.
    apply (f_equal snd) in Hsame. cbn [snd] in Hsame. done.
Qed.

(** X1: [request_count] counts every request handed to the application,
    answered or not: over a run it grows by exactly the number of
    requests in the run, and background threads do not touch it. *)
Theorem every_request_is_counted (l : list (action * world)) (s : state) :
  served (run l s) = served s + requests_in l.
Proof.
  revert s.
  induction l as [|[a w] l IH]; intros s; cbn [run requests_in]; [lia|].
  rewrite IH, perform_served. destruct a; lia.
Qed.

(** X2: handling one request, whatever its route and whether its view
    returns or raises, leaves the client set as the set before plus the
    request's client identifier, the X-Real-IP header when there is one
    and the peer address otherwise; a client seen before adds nothing. *)
Theorem request_adds_exactly_its_client (r : request) (w : world) (s : state) :
  clients (snd (wsgi_app r w s)) = {[client_ip_of r]} ∪ clients s
  ∧ client_ip_of r = match x_real_ip r with Some ip => Some ip | None => remote_addr r end
  ∧ (size (clients (snd (wsgi_app r w s)))
     = if bool_decide (client_ip_of r ∈ clients s) then size (clients s)
       else S (size (clients s)))%nat.
Proof.
  destruct (wsgi_app_bookkeeping r w s) as [_ Hclients].
  split; [exact Hclients|]. split; [reflexivity|].
  rewrite Hclients. destruct (decide (client_ip_of r ∈ clients s)) as [Hin|Hin].
  all: [> rewrite bool_decide_eq_true_2 by done | rewrite bool_decide_eq_false_2 by done].
  - f_equal. set_solver.
  - rewrite size_union by set_solver. by rewrite size_singleton.
Qed.

(** X3: from start-up on, the number of distinct clients never exceeds the
    number of requests counted. *)
Theorem clients_within_requests (w0 : world) (t0 : Z) (l : list (action * world)) :
  Z.of_nat (size (clients (run l (snd (main w0 (initial_state t0))))))
  ≤ served (run l (snd (main w0 (initial_state t0)))).
Proof.
  assert (∀ l s, Z.of_nat (size (clients s)) ≤ served s →
                 Z.of_nat (size (clients (run l s))) ≤ served (run l s)) as Hrun.
  { clear l. intros l. induction l as [|[a w] l IH]; intros s Hs; [done|].
    cbn [run]. apply IH. rewrite perform_served, perform_clients.
    destruct a as [r|i]; [|lia].
    rewrite size_union_alt, size_singleton.
    pose proof (subseteq_size (clients s ∖ {[client_ip_of r]}) (clients s)) as Hle.
    assert (clients s ∖ {[client_ip_of r]} ⊆ clients s) as Hsub by set_solver.
    specialize (Hle Hsub). lia. }
  apply Hrun.
  pose proof (main_same_bookkeeping w0 (initial_state t0)) as Hsame.
  pose proof (f_equal fst Hsame) as Hserved. pose proof (f_equal snd Hsame) as Hclients.
  cbn [fst snd] in Hserved, Hclients. rewrite <- Hserved, <- Hclients. done.
Qed.

(** ** The dependencies after start-up *)

Lemma perform_same_dependencies (a : action) :
  preserves (same dependencies) (perform a).
Proof. destruct a; solve_preserves ltac:(reflexivity). Qed.

Lemma main_health (w : world) (s : state) :
  health "postgres" (snd (main w s)) = Some (pg_connects w)
  ∧ health "redis" (snd (main w s)) = Some (redis_connects w).
Proof.
  destruct_state s.
  unfold pg_connects, redis_connects, redis_builds,
    configured_pg_params, configured_redis_params.
  run_code.
  destruct (psycopg2_connect_raises w _); cbn [returns_normally];
    (destruct (redis_Redis_raises w _); cbn [returns_normally andb];
     [|destruct (redis_ping_raises w); cbn [returns_normally]]);
    rewrite ?lookup_insert_eq;
    rewrite ?(lookup_insert_ne _ "redis" "postgres") by done;
    rewrite ?lookup_insert_eq; done.
Qed.

Lemma health_check_services (w : world) (s : state) (name : string) :
  returned ["services"; name] (health_check w s) = JBool <$> health name s.
Proof.
  unfold returned, health. cbn [health_check bind ask gets ret fst jsonify json_body body jpath].
  jget_fields. rewrite jget_json_of_bools. by destruct (_ !! name).
Qed.

(** X4: once the process serves, nothing updates what start-up decided:
    over every run of requests and background threads the health map,
    the connection gauges, the two connection objects and the debug flag
    stay as they were.  So the health endpoint keeps reporting, for each
    dependency, whether its connection succeeded at start-up, whatever has
    happened to the dependency since. *)
Theorem dependencies_fixed_at_startup :
  (∀ l s, dependencies (run l s) = dependencies s)
  ∧ (∀ w0 t0 l w,
       returned ["services"; "postgres"]
         (health_check w (run l (snd (main w0 (initial_state t0)))))
       = Some (JBool (pg_connects w0))
       ∧ returned ["services"; "redis"]
           (health_check w (run l (snd (main w0 (initial_state t0)))))
         = Some (JBool (redis_connects w0))).
Proof.
  assert (∀ l s, dependencies (run l s) = dependencies s) as Hfixed.
  { intros l s. symmetry.
    apply (run_preserves (same dependencies) perform_same_dependencies). }
  split; [exact Hfixed|]. intros w0 t0 l w.
  rewrite !health_check_services. unfold health.
  pose proof (f_equal (fun d => d.1.1.1.1) (Hfixed l (snd (main w0 (initial_state t0)))))
    as Hhealth.
  cbn [dependencies fst] in Hhealth. rewrite Hhealth.
  destruct (main_health w0 (initial_state t0)) as [Hpg Hrd]. unfold health in Hpg, Hrd.
  by rewrite Hpg, Hrd.
Qed.

Ltac connections_update :=
  unfold keeps_connections; cbn; split; intros; by eauto.

#[local] Instance keeps_connections_preorder : PreOrder keeps_connections.
Proof.
  split; [intros s; by split|].
  intros s1 s2 s3 [Hpg1 Hrd1] [Hpg2 Hrd2]. split; eauto.
Qed.

Lemma connect_postgres_keeps_connections : preserves keeps_connections connect_postgres.
Proof. solve_preserves connections_update. Qed.

Lemma connect_redis_keeps_connections : preserves keeps_connections connect_redis.
Proof. solve_preserves connections_update. Qed.

(** X5: no code path resets a connection global to [None].  Once
    [postgres_conn] or [redis_client] holds an object it holds one for
    good: a later [connect_postgres] or [connect_redis], failed or not,
    start-up, requests and threads all leave an object there.  A failed
    [connect_postgres] in particular keeps the object that was there, a
    successful one stores the new connection. *)
Theorem connection_objects_never_reset :
  (∀ w s, keeps_connections s (snd (connect_postgres w s)))
  ∧ (∀ w s, keeps_connections s (snd (connect_redis w s)))
  ∧ (∀ w s, keeps_connections s (snd (main w s)))
  ∧ (∀ l s, keeps_connections s (run l s))
  ∧ (∀ w s, postgres_conn (snd (connect_postgres w s))
            = if pg_connects w then Some (PgConnection (configured_pg_params w))
              else postgres_conn s).
Proof.
  split; [apply connect_postgres_keeps_connections|].
  split; [apply connect_redis_keeps_connections|].
  split.
  { pose proof connect_postgres_keeps_connections.
    pose proof connect_redis_keeps_connections.
    change (preserves keeps_connections main). solve_preserves connections_update. }
  split.
  { intros l s. apply (run_preserves keeps_connections). intros a w' s'.
    pose proof (perform_same_dependencies a w' s') as Hsame.
    pose proof (f_equal (fun d => (d.1.1.2, d.1.2)) Hsame) as Hconn.
    cbn [dependencies fst snd] in Hconn. injection Hconn as Hpg Hrd.
    unfold keeps_connections. by rewrite <- Hpg, <- Hrd. }
  intros w s. apply connect_globals.
Qed.

(** X6: start-up tries each dependency exactly once, the database first
    and the cache second, and tries the cache also when the database
    failed. *)
Theorem startup_connects_once_each (w : world) (s : state) :
  connect_attempts (new_events main w s)
  = [EvPgConnect (configured_pg_params w); EvRedisNew (configured_redis_params w)].
Proof.
  destruct_state s. unfold configured_pg_params, configured_redis_params.
  run_code.
  destruct (psycopg2_connect_raises w _);
    (destruct (redis_Redis_raises w _); [|destruct (redis_ping_raises w)]);
    added_events; reflexivity.
Qed.

(** ** The informational views *)

Lemma api_metrics_unchanged : preserves (same (fun s => s)) api_metrics.
Proof. solve_preserves fail. Qed.

(** X7: [api_metrics] never raises and changes nothing.  It answers 200
    with its document when the host has a name, the version text has a
    word and the health map has both entries, and otherwise 500 with a
    document that holds only the error text.  A failing memory reading is
    no error: the document then reports 0 for the memory usage. *)
Theorem api_metrics_never_raises (w : world) (s : state) :
  snd (api_metrics w s) = s
  ∧ ∃ resp, fst (api_metrics w s) = Ret resp
      ∧ status_code resp = (if api_metrics_ok w s then 200 else 500)
      ∧ if api_metrics_ok w s
        then returned ["infrastructure"; "memory_usage_mb"] (api_metrics w s)
             = Some (match ru_maxrss_result w with
                     | Ret maxrss => JRatio maxrss 1024
                     | Raise _ => JInt 0
                     end)
             ∧ returned ["error"] (api_metrics w s) = None
        else ∃ msg, body resp = Json (JObj [("error", JStr msg)]).
Proof.
  split; [symmetry; apply (api_metrics_unchanged w s)|].
  destruct_state s. unfold api_metrics_ok, returned.
  run_code. cbv [first_word raise ret].
  destruct (gethostname_result w) as [hostname|e]; cbn [answers andb];
    [|by eexists; repeat split; eexists].
  destruct (skip_space (sys_version w)) as [|a rest]; cbn [andb];
    [by eexists; repeat split; eexists|].
  destruct (sh !! "postgres") as [pg|]; cbn [andb];
    [|destruct (ru_maxrss_result w); by eexists; repeat split; eexists].
  destruct (sh !! "redis") as [rd|]; cbn [andb];
    [|destruct (ru_maxrss_result w); by eexists; repeat split; eexists].
  destruct (ru_maxrss_result w); eexists; (split; [reflexivity|]);
    (split; [reflexivity|]); cbn [fst json_body body jpath]; by jget_fields.
Qed.

Lemma network_info_unchanged : preserves (same (fun s => s)) network_info.
Proof. solve_preserves fail. Qed.

(** X8: [network_info] changes nothing, and raises exactly when
    [socket.gethostname()] raises, with that exception.  When the host
    has a name the view answers 200; a name that does not resolve is
    reported inside the document, as the error text in place of the
    address. *)
Theorem network_info_raises_with_gethostname (w : world) (s : state) :
  snd (network_info w s) = s
  ∧ match gethostname_result w with
    | Raise e => fst (network_info w s) = Raise e
    | Ret hostname =>
      ∃ resp, fst (network_info w s) = Ret resp
        ∧ status_code resp = 200
        ∧ returned ["container"; "hostname"] (network_info w s) = Some (JStr hostname)
        ∧ returned ["container"; "container_ip"] (network_info w s)
          = match gethostbyname_result w hostname with
            | Ret ip => Some (JStr ip)
            | Raise _ => None
            end
        ∧ returned ["container"; "error"] (network_info w s)
          = match gethostbyname_result w hostname with
            | Ret _ => None
            | Raise e => Some (JStr (str_exn e))
            end
    end.
Proof.
  split; [symmetry; apply (network_info_unchanged w s)|].
  destruct_state s. unfold returned. run_code.
  destruct (gethostname_result w) as [hostname|e]; [|reflexivity].
  destruct (gethostbyname_result w hostname) as [ip|e];
    eexists; (split; [reflexivity|]); (split; [reflexivity|]);
    cbn [fst json_body body jpath]; by jget_fields.
Qed.

(** ** What the network test does *)

Lemma test_external_connectivity_status (w : world) (s : state) :
  ∃ doc, fst (test_external_connectivity w s) = Ret doc
    ∧ jget "status" doc
      = Some (JStr (if returns_normally (create_connection_raises w "8.8.8.8" 53 3)
                    then "connected" else "failed"))
    ∧ jget "target" doc = Some (JStr "8.8.8.8:53").
Proof.
  destruct_state s. run_code.
  destruct (create_connection_raises w _ _ _); by eexists.
Qed.

(** X9: [network_test] never raises.  Whatever the database, the cache
    and the network do, it answers 200 with a document that has an entry
    for each of the three tests; every failure ends up as a status inside
    the document.  The external test reports "connected" when the socket
    to 8.8.8.8:53 opens and "failed" otherwise. *)
Theorem network_test_always_answers (w : world) (s : state) :
  ∃ resp, fst (network_test w s) = Ret resp
    ∧ status_code resp = 200
    ∧ is_Some (returned ["tests"; "postgres"; "status"] (network_test w s))
    ∧ is_Some (returned ["tests"; "redis"; "status"] (network_test w s))
    ∧ returned ["tests"; "external"; "status"] (network_test w s)
      = Some (JStr (if returns_normally (create_connection_raises w "8.8.8.8" 53 3)
                    then "connected" else "failed"))
    ∧ returned ["tests"; "external"; "target"] (network_test w s)
      = Some (JStr "8.8.8.8:53").
Proof.
  destruct (network_test_status w s) as [Hpg Hrd]. rewrite Hpg, Hrd. clear Hpg Hrd.
  destruct (network_test_postgres_status w s) as (d1 & E1 & _).
  unfold returned, network_test, bind.
  destruct (network_test_postgres w s) as [o1 s1]; cbn [fst] in E1; subst o1.
  destruct (network_test_redis_status w s1) as (d2 & E2 & _).
  destruct (network_test_redis w s1) as [o2 s2]; cbn [fst] in E2; subst o2.
  destruct (test_external_connectivity_status w s2) as (d3 & E3 & S3 & T3).
  destruct (test_external_connectivity w s2) as [o3 s3]; cbn [fst] in E3; subst o3.
  cbn [ask ret fst jsonify json_body body jpath status_code].
  eexists. split; [reflexivity|]. split; [reflexivity|].
  split; [by eexists|]. split; [by eexists|].
  jget_fields. by rewrite S3, T3.
Qed.

(** X10: the database probe of [network_test] makes each call only when
    the one before went through, and it closes its cursor only when
    [fetchone] returned.  A probe that fails at [execute] or [fetchone]
    leaves the cursor it opened unclosed; with no connection object no
    call is made at all. *)
Theorem network_test_postgres_calls (w : world) (s : state) :
  new_events network_test_postgres w s
  = match postgres_conn s with
    | None => []
    | Some _ =>
      EvPgCursor ::
      if returns_normally (pg_cursor_raises w) then
        EvPgExecute "SELECT version(), current_timestamp" ::
        if returns_normally (pg_execute_raises w "SELECT version(), current_timestamp")
        then EvPgFetchone ::
             if answers (pg_fetchone_result w) then [EvPgCursorClose] else []
        else []
      else []
    end.
Proof.
  destruct_state s. run_code. destruct pgc; [|by added_events].
  destruct (pg_cursor_raises w); [by added_events|].
  destruct (pg_execute_raises w _); [by added_events|].
  destruct (pg_fetchone_result w) as [[[version timestamp]|]|]; [| |by added_events];
    destruct (pg_cursor_close_raises w); by added_events.
Qed.

(** ** Counting requests *)

Lemma before_request_same_counter (r : request) :
  preserves (same (fun s => (REQUEST_COUNT (prom s), app_debug s))) (before_request r).
Proof. solve_preserves ltac:(reflexivity). Qed.

Lemma dispatch_same_counter (r : request) :
  preserves (same (fun s => (REQUEST_COUNT (prom s), app_debug s)))
    (try_except (dispatch_request r) handle_user_exception).
Proof. solve_preserves ltac:(reflexivity). Qed.

Lemma after_request_counter (r : request) (resp : response) (w : world) (s : state) :
  fst (after_request r resp w s) = Ret resp
  ∧ REQUEST_COUNT (prom (snd (after_request r resp w s)))
    = <[request_labels r resp := counted (request_labels r resp) s + 1]>
        (REQUEST_COUNT (prom s)).
Proof. by destruct_state s. Qed.

(** What one request does to the request counter, and when it is
    answered. *)
Lemma wsgi_app_counter (r : request) (w : world) (s : state) :
  match fst (wsgi_app r w s) with
  | Ret resp =>
    REQUEST_COUNT (prom (snd (wsgi_app r w s)))
    = <[request_labels r resp := counted (request_labels r resp) s + 1]>
        (REQUEST_COUNT (prom s))
  | Raise _ =>
    REQUEST_COUNT (prom (snd (wsgi_app r w s))) = REQUEST_COUNT (prom s)
    ∧ app_debug s = true
  end.
Proof.
  rewrite wsgi_app_after_preprocess.
  pose proof (before_request_same_counter r w s) as Hbefore. revert Hbefore.
  generalize (snd (before_request r w s)). intros s1 Hbefore.
  pose proof (dispatch_same_counter r w s1) as Hview.
  unfold same in Hbefore, Hview. unfold counted. unfold after_preprocess.
  remember (try_except (dispatch_request r) handle_user_exception) as inner.
  unfold handle_exception, finalize_request, process_response,
    try_except, bind, gets, raise, ret.
  destruct (inner w s1) as [[rv|e] s2]; cbn [snd] in Hview.
  - destruct (after_request_counter r rv w s2) as [Hret Hcount].
    destruct (after_request r rv w s2) as [o3 s3]; cbn [fst snd] in *; subst o3.
    cbn [fst snd]. rewrite Hcount. unfold counted. congruence.
  - destruct (app_debug s2) eqn:Hdebug; cbn [fst snd]; [split; congruence|].
    destruct (after_request_counter r {| body := ErrorPage 500; status_code := 500 |} w s2)
      as [Hret Hcount].
    destruct (after_request r _ w s2) as [o3 s3]; cbn [fst snd] in *; subst o3.
    cbn [fst snd]. rewrite Hcount. unfold counted. congruence.
Qed.

(** X11: a request that gets a response is counted exactly once: the
    counter child labelled with its method, its endpoint ("unknown" when
    no route matched) and the status of the response goes up by one, a
    child not seen before starting from zero, and no other child changes.
    A request whose exception leaves [wsgi_app] is not counted at all. *)
Theorem answered_request_counted_once (r : request) (w : world) (s : state) :
  match fst (wsgi_app r w s) with
  | Ret resp =>
    counted (request_labels r resp) (snd (wsgi_app r w s))
    = counted (request_labels r resp) s + 1
    ∧ ∀ labels, labels ≠ request_labels r resp →
        counted labels (snd (wsgi_app r w s)) = counted labels s
  | Raise _ => ∀ labels, counted labels (snd (wsgi_app r w s)) = counted labels s
  end.
Proof.
  pose proof (wsgi_app_counter r w s) as Hcount.
  destruct (fst (wsgi_app r w s)) as [resp|e]; unfold counted in *.
  - rewrite Hcount. split; [by rewrite lookup_insert_eq|].
    intros labels Hne. by rewrite lookup_insert_ne.
  - intros labels. destruct Hcount as [Hcount _]. by rewrite Hcount.
Qed.

(** X12: served without debug mode, every request is answered and the
    active-requests gauge is back at its value once the request is done,
    also when the view raised: the exception becomes the 500 response,
    which goes through [after_request] like any other. *)
Theorem without_debug_every_request_balanced (r : request) (w : world) (s : state) :
  app_debug s = false →
  answers (fst (wsgi_app r w s)) = true
  ∧ active (snd (wsgi_app r w s)) = active s.
Proof.
  intros Hdebug.
  pose proof (wsgi_app_counter r w s) as Hcount.
  pose proof (wsgi_app_active r w s) as Hactive.
  destruct (fst (wsgi_app r w s)) as [resp|e]; cbn [answers] in *; [done|].
  destruct Hcount as [_ Hcount]. congruence.
Qed.

Lemma without_debug_every_request_balanced_witness :
  app_debug (initial_state 0) = false
  ∧ fst (network_info (sample_world true true false 60) (initial_state 0))
    = Raise (refused "gethostname")
  ∧ answers (fst (wsgi_app (get "/network-info") (sample_world true true false 60)
                    (initial_state 0))) = true
  ∧ active (snd (wsgi_app (get "/network-info") (sample_world true true false 60)
                   (initial_state 0)))
    = active (initial_state 0).
Proof.
  split; [reflexivity|]. split; [reflexivity|].
  apply (without_debug_every_request_balanced (get "/network-info")
           (sample_world true true false 60) (initial_state 0)).
  reflexivity.
Defined.



Lemma health_request (w : world) (s : state) :
  ∃ resp, fst (wsgi_app (get "/health") w s) = Ret resp
    ∧ request_labels (get "/health") resp = ("GET", "health_check", "200").
Proof. by eexists. Qed.

Lemma health_request_counted (w : world) (s : state) :
  counted ("GET", "health_check", "200") (snd (wsgi_app (get "/health") w s))
  = counted ("GET", "health_check", "200") s + 1
  ∧ active (snd (wsgi_app (get "/health") w s)) = active s.
Proof.
  destruct (health_request w s) as (resp & Hresp & Hlabels).
  pose proof (wsgi_app_counter (get "/health") w s) as Hcount.
  pose proof (wsgi_app_active (get "/health") w s) as Hactive.
  rewrite Hresp in Hcount, Hactive. rewrite Hlabels in Hcount.
  split; [|exact Hactive].
  unfold counted at 1. rewrite Hcount. by rewrite lookup_insert_eq.
Qed.

(** X14: requests handled one after the other are all counted: after [n]
    GETs of /health, in whatever worlds, the counter child for GET,
    health_check, 200 is [n] above where it was and the active-requests
    gauge is back at its value. *)
Theorem health_requests_counted (ws : list world) (s : state) :
  counted ("GET", "health_check", "200") (run (gets_of "/health" ws) s)
  = counted ("GET", "health_check", "200") s + Z.of_nat (length ws)
  ∧ active (run (gets_of "/health" ws) s) = active s.
Proof.
  revert s. induction ws as [|w ws IH]; intros s; [split; cbn; lia|].
  change (gets_of "/health" (w :: ws))
    with ((Serve (get "/health"), w) :: gets_of "/health" ws).
  cbn [run]. destruct (IH (snd (perform (Serve (get "/health")) w s))) as [-> ->].
  destruct (health_request_counted w s) as [Hcount Hactive].
  assert (snd (perform (Serve (get "/health")) w s) = snd (wsgi_app (get "/health") w s))
    as -> by (unfold perform, bind; by destruct (wsgi_app _ w s) as [[?|?] ?]).
  rewrite Hcount, Hactive. cbn [length]. split; lia.
Qed.

(** X15: a scrape of /metrics sees itself.  The exposition is rendered
    after [before_request] and before [after_request]: it shows the
    active-requests gauge one above its value outside the request and does
    not yet count the scrape, which is counted once the response is on
    its way. *)
Theorem metrics_scrape_sees_itself (w : world) (s : state) :
  ∃ m, fst (wsgi_app (get "/metrics") w s)
       = Ret {| body := Exposition m; status_code := 200 |}
    ∧ ACTIVE_CONNECTIONS m = active s + 1
    ∧ REQUEST_COUNT m = REQUEST_COUNT (prom s)
    ∧ DATABASE_CONNECTIONS m = DATABASE_CONNECTIONS (prom s)
    ∧ active (snd (wsgi_app (get "/metrics") w s)) = active s
    ∧ counted ("GET", "prometheus_metrics", "200") (snd (wsgi_app (get "/metrics") w s))
      = counted ("GET", "prometheus_metrics", "200") s + 1.
Proof.
  exists (prom (snd (before_request (get "/metrics") w s))).
  assert (fst (wsgi_app (get "/metrics") w s)
          = Ret {| body := Exposition (prom (snd (before_request (get "/metrics") w s)));
                   status_code := 200 |}) as Hresp by done.
  split; [exact Hresp|].
  split; [by destruct_state s|].
  split; [by destruct_state s|]. split; [by destruct_state s|].
  pose proof (wsgi_app_counter (get "/metrics") w s) as Hcount.
  pose proof (wsgi_app_active (get "/metrics") w s) as Hactive.
  rewrite Hresp in Hcount, Hactive. split; [exact Hactive|].
  change (request_labels (get "/metrics") _) with ("GET", "prometheus_metrics", "200")
    in Hcount.
  unfold counted at 1. rewrite Hcount. by rewrite lookup_insert_eq.
Qed.

(** ** Background threads *)

Lemma simulate_load_request_threads (w : world) (s : state) :
  threads (snd (perform (Serve (get "/api/simulate-load")) w s))
  = threads s ++ [background_task_target].
Proof. by destruct_state s. Qed.

(** X16: one thread per request, without bound.  Every GET of
    /api/simulate-load leaves one more thread pending, so [n] of them
    leave [n]; running a pending thread takes exactly that thread off the
    list, and asking for one that is not there changes nothing. *)
Theorem one_thread_per_submission :
  (∀ ws s, threads (run (gets_of "/api/simulate-load" ws) s)
           = threads s ++ replicate (length ws) background_task_target)
  ∧ (∀ i w s, threads (snd (perform (RunThread i) w s)) = delete i (threads s)).
Proof.
  split.
  - intros ws. induction ws as [|w ws IH]; intros s; [by rewrite app_nil_r|].
    change (gets_of "/api/simulate-load" (w :: ws))
      with ((Serve (get "/api/simulate-load"), w) :: gets_of "/api/simulate-load" ws).
    cbn [run]. rewrite IH, simulate_load_request_threads.
    by rewrite <- app_assoc.
  - intros i w s. destruct_state s. run_code.
    destruct (thr !! i) as [[]|] eqn:Hlook.
    + destruct rdc; [|done]. by destruct (redis_setex_raises w _ _ _).
    + cbn. apply lookup_ge_None in Hlook.
      rewrite delete_take_drop, take_ge, drop_ge by lia. by rewrite app_nil_r.
Qed.

Lemma square_sum_loop_succ (n : N) :
  square_sum_loop (N.succ n)
  = (fst (square_sum_loop n) + 1,
     snd (square_sum_loop n) + fst (square_sum_loop n) * fst (square_sum_loop n)).
Proof.
  unfold square_sum_loop. rewrite N.iter_succ. by destruct (N.iter n _ _).
Qed.

(** X17: the loop of the background task adds up the squares below its
    bound: after [n] rounds the counter is [n] and six times the total is
    [(n - 1) * n * (2 * n - 1)].  With the bound 100000 of the source the
    task writes the text 333328333350000. *)
Theorem background_total_is_square_sum :
  (∀ n, fst (square_sum_loop n) = Z.of_N n
        ∧ 6 * snd (square_sum_loop n)
          = (Z.of_N n - 1) * Z.of_N n * (2 * Z.of_N n - 1))
  ∧ background_total = snd (square_sum_loop 100000)
  ∧ pretty background_total = "333328333350000".
Proof.
  split; [|split; [unfold background_total, square_sum_loop; exact eq_refl
                  | vm_compute; exact eq_refl]].
  intros n. induction n as [|n [IHi IHt]] using N.peano_ind; [done|].
  rewrite square_sum_loop_succ. cbn [fst snd]. rewrite IHi.
  split; [lia|]. rewrite N2Z.inj_succ. nia.
Qed.
